(** * A shallow embedding of app.py: the wire codec and the payment pipeline

    Definitions, in the order of the source file:
    - [Py]        the Python built-ins the code relies on (str.split,
                  str.join, str.encode('ascii'), bytes.hex, truthiness,
                  dict item assignment) and exceptions as values;
    - [Codec]     class Iso8583Message (__init__, unpack, pack);
    - [Pipeline]  initiate_payout, process_payment_logic and
                  log_transaction_to_firestore, over a [World] that holds
                  the globals and the outside (db, app_id, the random
                  module, os.urandom, the clock, the log);
    - [Text], [Wire], [Runs], [Spec], [Scenarios]
                  the words the statements are written in: delimiters of
                  a text, what unpack reads in it, worlds and replies,
                  the notions of the specification, concrete inputs.
    Then the properties: facts about split and join, unpack case by case,
    the codec properties, runs of the pipeline, the pipeline properties.

    Python [str] is modelled by [string]: a character is one of the 256
    values of [ascii]; the values 128..255 stand for every non-ASCII code
    point (none of them is a delimiter and all of them make
    [.encode('ascii')] raise). *)

From Stdlib Require Import String Ascii List ZArith Bool Lia.
From Stdlib.Strings Require Import Byte.
From Corelib Require Import PrimFloat.
From stdpp Require Import base option list strings gmap.
Import ListNotations.

Set Warnings "-register-all".
Local Open Scope string_scope.
Local Open Scope list_scope.

(** ** Python built-ins *)

Module Py.

(** Exceptions that the modelled code can meet. *)
Inductive Exn : Type :=
| IndexError                       (* list index out of range *)
| ValueError_not_enough (got : nat) (* not enough values to unpack (expected 2, got n) *)
| ValueError_too_many              (* too many values to unpack (expected 2) *)
| UnicodeEncodeError (position : nat)
| ExternalError (what : string).   (* raised by a library outside the program *)

(** The outcome of running a statement: a value or a raised exception. *)
Inductive Res (A : Type) : Type :=
| Ok (a : A)
| Raise (e : Exn).
Arguments Ok {A} a.
Arguments Raise {A} e.

(** A computation over a mutable state [S].  The state survives an
    exception: what was assigned before the [raise] stays assigned. *)
Definition M (S A : Type) : Type := S -> Res A * S.

Definition ret {S A} (a : A) : M S A := fun s => (Ok a, s).

Definition bind {S A B} (c : M S A) (k : A -> M S B) : M S B :=
  fun s => match c s with
           | (Ok a, s') => k a s'
           | (Raise e, s') => (Raise e, s')
           end.

Definition raise {S A} (e : Exn) : M S A := fun s => (Raise e, s).

(** [try: body except Exception as e: handler e] *)
Definition try_except {S A} (body : M S A) (handler : Exn -> M S A) : M S A :=
  fun s => match body s with
           | (Ok a, s') => (Ok a, s')
           | (Raise e, s') => handler e s'
           end.

Definition get {S} : M S S := fun s => (Ok s, s).
Definition modify {S} (f : S -> S) : M S unit := fun s => (Ok tt, f s).
Definition lift_res {S A} (r : Res A) : M S A := fun s => (r, s).

Declare Scope py_scope.
Delimit Scope py_scope with py.
Notation "x <- c1 ;; c2" := (bind c1 (fun x => c2))
  (at level 100, c1 at next level, right associativity) : py_scope.
Notation "c1 ;; c2" := (bind c1 (fun _ => c2))
  (at level 100, right associativity) : py_scope.

(** [for x in xs: body x] *)
Fixpoint for_in {S A} (xs : list A) (body : A -> M S unit) : M S unit :=
  match xs with
  | [] => ret tt
  | x :: rest => bind (body x) (fun _ => for_in rest body)
  end.

(** [s.split(sep)] for a one-character separator: every occurrence of
    [sep] cuts, so the result has one more piece than [s] has separators
    and is never empty ([''.split('|') == ['']]). *)
Fixpoint split (sep : ascii) (s : string) : list string :=
  match s with
  | EmptyString => [EmptyString]
  | String c rest =>
      if Ascii.eqb c sep then EmptyString :: split sep rest
      else match split sep rest with
           | piece :: pieces => String c piece :: pieces
           | [] => [String c EmptyString]
           end
  end.

(** [sep.join(pieces)] *)
Fixpoint join (sep : string) (pieces : list string) : string :=
  match pieces with
  | [] => EmptyString
  | [p] => p
  | p :: rest => p +:+ sep +:+ join sep rest
  end.

(** [xs[i]] *)
Definition index {A} (xs : list A) (i : nat) : Res A :=
  match nth_error xs i with
  | Some x => Ok x
  | None => Raise IndexError
  end.

(** [a, b = xs] *)
Definition unpack2 {A} (xs : list A) : Res (A * A) :=
  match xs with
  | [a; b] => Ok (a, b)
  | [] => Raise (ValueError_not_enough 0)
  | [_] => Raise (ValueError_not_enough 1)
  | _ => Raise ValueError_too_many
  end.

(** A [dict] with [str] keys, as Python keeps it: insertion-ordered, one
    entry per key. *)
Definition dict (V : Type) : Type := list (string * V).

(** [d[k] = v]: an existing key keeps its place and takes the new value, a
    new key goes to the end. *)
Fixpoint dict_setitem {V} (k : string) (v : V) (d : dict V) : dict V :=
  match d with
  | [] => [(k, v)]
  | (k', v') :: rest =>
      if String.eqb k' k then (k', v) :: rest
      else (k', v') :: dict_setitem k v rest
  end.

(** A character of the 7-bit ASCII range. *)
Definition is_ascii (c : ascii) : bool :=
  match c with Ascii _ _ _ _ _ _ _ b7 => negb b7 end.

(** [s.encode('ascii')], with the position of the first offending
    character when it raises. *)
Fixpoint encode_ascii_from (pos : nat) (s : string) : Res (list byte) :=
  match s with
  | EmptyString => Ok []
  | String c rest =>
      if is_ascii c then
        match encode_ascii_from (S pos) rest with
        | Ok bs => Ok (byte_of_ascii c :: bs)
        | Raise e => Raise e
        end
      else Raise (UnicodeEncodeError pos)
  end.

Definition encode_ascii (s : string) : Res (list byte) := encode_ascii_from 0 s.

(** [b.decode('ascii')], what a caller applies to received bytes before it
    hands text to [unpack]. *)
Fixpoint decode_ascii (bs : list byte) : option string :=
  match bs with
  | [] => Some EmptyString
  | b :: rest =>
      if is_ascii (ascii_of_byte b) then
        match decode_ascii rest with
        | Some s => Some (String (ascii_of_byte b) s)
        | None => None
        end
      else None
  end.

(** [b.hex()]: two lower-case digits per byte. *)
Definition hex_digit (n : nat) : ascii :=
  match n with
  | 0 => "0" | 1 => "1" | 2 => "2" | 3 => "3" | 4 => "4" | 5 => "5"
  | 6 => "6" | 7 => "7" | 8 => "8" | 9 => "9" | 10 => "a" | 11 => "b"
  | 12 => "c" | 13 => "d" | 14 => "e" | _ => "f"
  end%char.

Fixpoint hex (bs : list byte) : string :=
  match bs with
  | [] => EmptyString
  | b :: rest =>
      let n := Byte.to_nat b in
      String (hex_digit (n / 16)) (String (hex_digit (n mod 16)) (hex rest))
  end.

(** The values a decoded JSON body is made of. *)
Inductive PyVal : Type :=
| PyNone
| PyBool (b : bool)
| PyInt (n : Z)
| PyFloat (x : float)
| PyStr (s : string)
| PyList (items : list PyVal)
| PyDict (items : list (string * PyVal)).

(** Truth value of an object, as [all], [not] and [if] test it. *)
Definition truthy (v : PyVal) : bool :=
  match v with
  | PyNone => false
  | PyBool b => b
  | PyInt n => negb (Z.eqb n 0)
  | PyFloat x => negb (PrimFloat.eqb x 0%float)
  | PyStr s => negb (String.eqb s "")
  | PyList items => match items with [] => false | _ => true end
  | PyDict items => match items with [] => false | _ => true end
  end.

(** [all(values)] *)
Definition all (values : list PyVal) : bool := forallb truthy values.

(** [d.get(key)] and [d.get(key, default)] on a JSON object. *)
Definition dict_get (d : gmap string PyVal) (key : string) : PyVal :=
  match d !! key with Some v => v | None => PyNone end.

Definition dict_get_default (d : gmap string PyVal) (key : string) (dflt : PyVal) : PyVal :=
  match d !! key with Some v => v | None => dflt end.

End Py.

Import Py.
Local Open Scope py_scope.

(** ** The log

    A log line is kept as the call that produced it, with the values that
    are interpolated into its text. *)

Inductive Level : Type := INFO | WARNING | ERROR.

Inductive LogRecord : Type :=
| LogUnpackFailed (e : Exn)
    (* error: "Failed to unpack ISO message: {e}" *)
| LogPayoutInitiating (amount : PyVal) (payout_type wallet_address : string)
    (* info: "Processor: Initiating payout of {amount} {payout_type} to {wallet_address}..." *)
| LogPayoutSuccessful (tx_hash : string)
    (* info: "Processor: Payout successful. Transaction Hash: {blockchain_tx_hash}" *)
| LogPayoutFailed (e : Exn)
    (* error: "Processor: Crypto payout failed: {e}" *)
| LogFirestoreUnavailable
    (* warning: "Firestore or user ID not available. Cannot log transaction." *)
| LogTransactionLogged (user_id : PyVal)
    (* info: "Transaction logged to Firestore for user {user_id}" *)
| LogFirestoreError (e : Exn).
    (* error: "Error logging to Firestore: {e}" *)

Definition level (r : LogRecord) : Level :=
  match r with
  | LogUnpackFailed _ | LogPayoutFailed _ | LogFirestoreError _ => ERROR
  | LogFirestoreUnavailable => WARNING
  | _ => INFO
  end.

(** ** class Iso8583Message *)

Module Codec.

Record Iso8583Message : Type := {
  mti : option string;               (* None until unpack or pack assigns it *)
  data_elements : dict string
}.

(** The object being worked on and the log written so far. *)
Record State : Type := {
  self : Iso8583Message;
  logged : list LogRecord
}.

Definition set_mti (m : string) : M State unit :=
  modify (fun st => {| self := {| mti := Some m;
                                  data_elements := data_elements (self st) |};
                       logged := logged st |}).

Definition set_data_elements (d : dict string) : M State unit :=
  modify (fun st => {| self := {| mti := mti (self st); data_elements := d |};
                       logged := logged st |}).

(** [self.data_elements[key] = value] *)
Definition setitem_data_element (key value : string) : M State unit :=
  modify (fun st => {| self := {| mti := mti (self st);
                                  data_elements :=
                                    dict_setitem key value (data_elements (self st)) |};
                       logged := logged st |}).

Definition logging_error (r : LogRecord) : M State unit :=
  modify (fun st => {| self := self st; logged := logged st ++ [r] |}).

(** The [try] block of [unpack] (lines 63-69). *)
Definition unpack_body (message_str : string) : M State unit :=
  let parts := split "|" message_str in
  part0 <- lift_res (index parts 0) ;;
  m <- lift_res (index (split ":" part0) 1) ;;
  set_mti m ;;
  data_part <- lift_res (index parts 1) ;;
  let elements := split "," data_part in
  for_in elements (fun element =>
    kv <- lift_res (unpack2 (split ":" element)) ;;
    setitem_data_element (fst kv) (snd kv)).

(** [unpack]: any exception of the body is logged and the type becomes
    'ERROR'; nothing else is undone. *)
Definition unpack (message_str : string) : M State unit :=
  try_except (unpack_body message_str)
    (fun e => logging_error (LogUnpackFailed e) ;; set_mti "ERROR").

(** [__init__(self, message_str=None)] *)
Definition init (message_str : option string) : M State unit :=
  modify (fun st => {| self := {| mti := None; data_elements := [] |};
                       logged := logged st |}) ;;
  match message_str with
  | Some s => if String.eqb s "" then ret tt else unpack s
  | None => ret tt
  end.

(** [pack]: the object takes the arguments, and the text is returned as
    ASCII bytes. *)
Definition pack (m : string) (fields : dict string) : M State (list byte) :=
  set_mti m ;;
  set_data_elements fields ;;
  st <- get ;;
  let data_parts :=
    map (fun kv => fst kv +:+ ":" +:+ snd kv) (data_elements (self st)) in
  let message_str := "MTI:" +:+ m +:+ "|" +:+ join "," data_parts in
  lift_res (encode_ascii message_str).

(** A freshly constructed object, [Iso8583Message()], with an empty log. *)
Definition fresh : State :=
  {| self := {| mti := None; data_elements := [] |}; logged := [] |}.

(** Decoding a text: [unpack] on a fresh object. *)
Definition decode (message_str : string) : Res unit * State :=
  unpack message_str fresh.

(** Encoding a message: [pack] on a fresh object. *)
Definition encode (m : string) (fields : dict string) : Res (list byte) :=
  fst (pack m fields fresh).

End Codec.

Import Codec.

(** ** The payment pipeline *)

Module Pipeline.

(** The document [log_transaction_to_firestore] hands to Firestore. *)
Record TxDoc : Type := {
  doc_amount : PyVal;
  doc_currency : PyVal;
  doc_protocol : PyVal;
  doc_cardNumber : PyVal;
  doc_status : string;
  doc_response_code : string;
  doc_blockchain_hash : option string
  (* 'timestamp' is the constant firestore.SERVER_TIMESTAMP *)
}.

(** The Firestore client behind the global [db]: the documents added so
    far under artifacts/<app_id>/users/<user_id>/transactions, and the
    library's answer to an [add]: the exception it raises, if any (a bad
    document id, the network, the backend). *)
Record Firestore : Type := {
  transactions : list (string * PyVal * TxDoc);
  add_raises : PyVal -> TxDoc -> option Exn
}.

(** Everything outside the function arguments that the pipeline reads or
    writes. *)
Record World : Type := {
  db : option Firestore;        (* the global db; None when Firebase is not set up *)
  app_id : string;              (* the global app_id *)
  choices : nat -> bool;        (* what the coming calls of random.choice([True, False]) return *)
  entropy : nat -> byte;        (* the bytes os.urandom hands out next *)
  slept : nat;                  (* seconds spent in time.sleep *)
  log : list LogRecord
}.

Definition logging (r : LogRecord) : M World unit :=
  modify (fun w => {| db := db w; app_id := app_id w; choices := choices w;
                      entropy := entropy w; slept := slept w;
                      log := log w ++ [r] |}).

(** [random.choice([True, False])] *)
Definition random_choice : M World bool :=
  fun w => (Ok (choices w 0),
            {| db := db w; app_id := app_id w;
               choices := fun i => choices w (S i);
               entropy := entropy w; slept := slept w; log := log w |}).

(** [os.urandom(n)]: the next [n] bytes of the system's entropy (a system
    without an entropy source is not modelled). *)
Definition os_urandom (n : nat) : M World (list byte) :=
  fun w => (Ok (map (entropy w) (seq 0 n)),
            {| db := db w; app_id := app_id w; choices := choices w;
               entropy := fun i => entropy w (n + i);
               slept := slept w; log := log w |}).

(** [time.sleep(seconds)] *)
Definition time_sleep (seconds : nat) : M World unit :=
  modify (fun w => {| db := db w; app_id := app_id w; choices := choices w;
                      entropy := entropy w; slept := slept w + seconds;
                      log := log w |}).

(** The dict [initiate_payout] returns. *)
Record PayoutResult : Type := {
  payout_status : string;
  payout_hash : option string
}.

Definition initiate_payout (amount : PyVal) (payout_type wallet_address : string)
  : M World PayoutResult :=
  logging (LogPayoutInitiating amount payout_type wallet_address) ;;
  try_except
    (random_bytes <- os_urandom 32 ;;
     let blockchain_tx_hash := "0x" +:+ hex random_bytes in
     logging (LogPayoutSuccessful blockchain_tx_hash) ;;
     time_sleep 1 ;;
     ret {| payout_status := "success"; payout_hash := Some blockchain_tx_hash |})
    (fun e =>
       logging (LogPayoutFailed e) ;;
       ret {| payout_status := "failure"; payout_hash := None |}).

(** The dict [process_payment_logic] returns.  [blockchain_hash] is [None]
    when the key is absent (the code-99 reply) and [Some None] when it is
    present with value None. *)
Record Reply : Type := {
  status : string;
  response_code : string;
  message : string;
  blockchain_hash : option (option string)
}.

(** [result.get('blockchain_hash')] *)
Definition get_blockchain_hash (result : Reply) : option string :=
  match blockchain_hash result with Some h => h | None => None end.

(** [transactions_ref.add(doc)] *)
Definition firestore_add (fs : Firestore) (user_id : PyVal) (doc : TxDoc) : M World unit :=
  match add_raises fs user_id doc with
  | Some e => raise e
  | None =>
      modify (fun w =>
        {| db := Some {| transactions := transactions fs ++ [(app_id w, user_id, doc)];
                         add_raises := add_raises fs |};
           app_id := app_id w; choices := choices w; entropy := entropy w;
           slept := slept w; log := log w |})
  end.

Definition log_transaction_to_firestore
    (user_id : PyVal) (data : gmap string PyVal) (result : Reply) : M World unit :=
  w <- get ;;
  match db w with
  | Some fs =>
      if truthy user_id then
        try_except
          (firestore_add fs user_id
             {| doc_amount := dict_get data "amount";
                doc_currency := dict_get data "currency";
                doc_protocol := dict_get data "protocol";
                doc_cardNumber := dict_get data "cardNumber";
                doc_status := status result;
                doc_response_code := response_code result;
                doc_blockchain_hash := get_blockchain_hash result |} ;;
           logging (LogTransactionLogged user_id))
          (fun e => logging (LogFirestoreError e))
      else logging LogFirestoreUnavailable
  | None => logging LogFirestoreUnavailable
  end.

(** [process_payment_logic], with the function bound to the global name
    [initiate_payout] as a parameter: Python looks the name up when the
    call is made. *)
Definition process_payment_logic_with
    (payout : PyVal -> string -> string -> M World PayoutResult)
    (data : gmap string PyVal) : M World Reply :=
  let amount := dict_get data "amount" in
  let currency := dict_get data "currency" in
  let card_number := dict_get data "cardNumber" in
  let protocol := dict_get data "protocol" in
  let user_id := dict_get_default data "userId" (PyStr "virtual-terminal-1") in
  if negb (all [amount; currency; card_number; protocol]) then
    ret {| status := "declined"; response_code := "99";
           message := "Missing transaction data."; blockchain_hash := None |}
  else
    is_approved <- random_choice ;;
    outcome <-
      (if is_approved : bool then
         let payout_type := "USDT_TRC20" in
         let merchant_wallet := "Txxxxxxxxxxxxxxxxxxxxxxxxxxxxxxxxx" in
         payout_result <- payout amount payout_type merchant_wallet ;;
         if String.eqb (payout_status payout_result) "success" then
           ret (payout_hash payout_result,
                "Transaction approved and payout initiated.", "00")
         else
           ret (None, "Transaction approved, but payout failed.", "05")
       else
         ret (None, "Transaction declined by internal rules.", "51")) ;;
    let '(blockchain_tx_hash, status_message, code) := outcome in
    let result := {| status := if is_approved : bool then "approved" else "declined";
                     response_code := code;
                     message := status_message;
                     blockchain_hash := Some blockchain_tx_hash |} in
    log_transaction_to_firestore user_id data result ;;
    ret result.

(** The function as the module defines it. *)
Definition process_payment_logic (data : gmap string PyVal) : M World Reply :=
  process_payment_logic_with initiate_payout data.

End Pipeline.

Import Pipeline.

(** ** Texts and their delimiters *)

Module Text.

(** [s.count(c)] *)
Fixpoint count (c : ascii) (s : string) : nat :=
  match s with
  | EmptyString => 0
  | String a rest => (if Ascii.eqb a c then 1 else 0) + count c rest
  end.

(** The text in front of the first [c] (all of [s] when there is none). *)
Fixpoint before (c : ascii) (s : string) : string :=
  match s with
  | EmptyString => EmptyString
  | String a rest => if Ascii.eqb a c then EmptyString else String a (before c rest)
  end.

(** The text behind the first [c] (empty when there is none). *)
Fixpoint after (c : ascii) (s : string) : string :=
  match s with
  | EmptyString => EmptyString
  | String a rest => if Ascii.eqb a c then rest else after c rest
  end.

(** No character of [s] is one of the three delimiters of the wire format. *)
Definition delimiter_free (s : string) : Prop :=
  count "|" s = 0 /\ count "," s = 0 /\ count ":" s = 0.

(** Every character of [s] is in the ASCII range. *)
Fixpoint all_ascii (s : string) : bool :=
  match s with
  | EmptyString => true
  | String a rest => is_ascii a && all_ascii rest
  end.

End Text.

Import Text.

(** ** Words for what [unpack] reads in a text *)

Module Wire.

(** The first two "|"-segments of a text. *)
Definition segment1 (s : string) : string := before "|" s.
Definition segment2 (s : string) : string := before "|" (after "|" s).

(** The text between the first and the second colon of the first segment
    (up to the end of the segment when it has one colon only). *)
Definition type_text (s : string) : string := before ":" (after ":" (segment1 s)).

(** The first segment has a colon and the text has a "|". *)
Definition framed (s : string) : bool :=
  Nat.ltb 0 (count ":" (segment1 s)) && Nat.ltb 0 (count "|" s).

(** The comma-separated elements of the second segment. *)
Definition elements (s : string) : list string := split "," (segment2 s).

(** An element with exactly one colon. *)
Definition pair_ok (element : string) : bool := Nat.eqb (count ":" element) 1.

Definition cut_pair (element : string) : string * string :=
  (before ":" element, after ":" element).

(** What [key, value = element.split(':')] raises on another element. *)
Definition pair_error (element : string) : Exn :=
  if Nat.eqb (count ":" element) 0 then ValueError_not_enough 1 else ValueError_too_many.

(** The pairs in front of the first element that is not a pair. *)
Fixpoint leading_pairs (els : list string) : list (string * string) :=
  match els with
  | [] => []
  | e :: rest => if pair_ok e then cut_pair e :: leading_pairs rest else []
  end.

Definition first_bad (els : list string) : option string :=
  List.find (fun e => negb (pair_ok e)) els.

(** Storing pairs one after the other, as the loop of [unpack] does. *)
Definition store_all (kvs : list (string * string)) (d : dict string) : dict string :=
  fold_left (fun acc kv => dict_setitem (fst kv) (snd kv) acc) kvs d.

(** The text [pack] builds before it turns it into bytes. *)
Definition render (kv : string * string) : string := fst kv +:+ ":" +:+ snd kv.

Definition packed_text (m : string) (flds : dict string) : string :=
  "MTI:" +:+ m +:+ "|" +:+ join "," (map render flds).

(** The object [decode] leaves. *)
Definition decoded (s : string) : Iso8583Message := self (snd (decode s)).

(** The keys of a dict. *)
Definition keys {V} (d : dict V) : list string := map fst d.

End Wire.

Import Wire.

(** ** Words for runs of the pipeline *)

Module Runs.

(** The world with another Firestore handle, or another state of the
    random module. *)
Definition with_db (w : World) (d : option Firestore) : World :=
  {| db := d; app_id := app_id w; choices := choices w; entropy := entropy w;
     slept := slept w; log := log w |}.

Definition with_choices (w : World) (c : nat -> bool) : World :=
  {| db := db w; app_id := app_id w; choices := c; entropy := entropy w;
     slept := slept w; log := log w |}.

(** The four values the presence check looks at, in its order. *)
Definition required (data : gmap string PyVal) : list PyVal :=
  [dict_get data "amount"; dict_get data "currency";
   dict_get data "cardNumber"; dict_get data "protocol"].

Definition user_id_of (data : gmap string PyVal) : PyVal :=
  dict_get_default data "userId" (PyStr "virtual-terminal-1").

(** The hash the payout stub makes of the next 32 bytes of entropy. *)
Definition next_hash (w : World) : string :=
  "0x" +:+ hex (map (entropy w) (seq 0 32)).

(** The reply of the presence check. *)
Definition reply_99 : Reply :=
  {| status := "declined"; response_code := "99";
     message := "Missing transaction data."; blockchain_hash := None |}.

(** The documents Firestore holds. *)
Definition persisted (w : World) : list TxDoc :=
  match db w with
  | Some fs => map snd (transactions fs)
  | None => []
  end.

(** The document written for a request and its reply. *)
Definition doc_of (data : gmap string PyVal) (result : Reply) : TxDoc :=
  {| doc_amount := dict_get data "amount";
     doc_currency := dict_get data "currency";
     doc_protocol := dict_get data "protocol";
     doc_cardNumber := dict_get data "cardNumber";
     doc_status := status result;
     doc_response_code := response_code result;
     doc_blockchain_hash := get_blockchain_hash result |}.

Definition add_log (w : World) (r : LogRecord) : World :=
  {| db := db w; app_id := app_id w; choices := choices w; entropy := entropy w;
     slept := slept w; log := log w ++ [r] |}.

(** The world after the ledger step. *)
Definition after_ledger (user_id : PyVal) (doc : TxDoc) (w : World) : World :=
  match db w with
  | Some fs =>
      if truthy user_id then
        match add_raises fs user_id doc with
        | Some e => add_log w (LogFirestoreError e)
        | None =>
            add_log
              (with_db w (Some {| transactions := transactions fs ++ [(app_id w, user_id, doc)];
                                  add_raises := add_raises fs |}))
              (LogTransactionLogged user_id)
        end
      else add_log w LogFirestoreUnavailable
  | None => add_log w LogFirestoreUnavailable
  end.

(** The replies of the three outcomes behind the presence check. *)
Definition reply_00 (h : option string) : Reply :=
  {| status := "approved"; response_code := "00";
     message := "Transaction approved and payout initiated.";
     blockchain_hash := Some h |}.

Definition reply_05 : Reply :=
  {| status := "approved"; response_code := "05";
     message := "Transaction approved, but payout failed.";
     blockchain_hash := Some None |}.

Definition reply_51 : Reply :=
  {| status := "declined"; response_code := "51";
     message := "Transaction declined by internal rules.";
     blockchain_hash := Some None |}.

Definition merchant_wallet : string := "Txxxxxxxxxxxxxxxxxxxxxxxxxxxxxxxxx".

(** The line the ledger step writes for the user id and the document:
    the warning, the success line with the user id, or the error line
    with the exception that the add of this document raised. *)
Definition ledger_log_line (user_id : PyVal) (doc : TxDoc) (w : World) (r : LogRecord) : Prop :=
  r = LogFirestoreUnavailable \/
  r = LogTransactionLogged user_id \/
  exists fs e,
    db w = Some fs /\ add_raises fs user_id doc = Some e /\ r = LogFirestoreError e.

(** The lines a run on [data] in the world [w] can write, each with
    everything it interpolates: the amount, the payout type and the
    wallet; the hash; nothing; the user id; the exception that Firestore
    raised on the add of a document of this request. *)
Definition run_log_line (data : gmap string PyVal) (w : World) (r : LogRecord) : Prop :=
  r = LogPayoutInitiating (dict_get data "amount") "USDT_TRC20" merchant_wallet \/
  r = LogPayoutSuccessful (next_hash w) \/
  exists reply, ledger_log_line (user_id_of data) (doc_of data reply) w r.

End Runs.

Import Runs.

(** ** Notions of the specification *)

Module Spec.

(** The structured message of the specification: a type and an ordered
    field map. *)
Record WireMessage : Type := {
  messageType : string;
  fields : dict string
}.

(** The object that holds a [WireMessage]. *)
Definition as_object (m : WireMessage) : Iso8583Message :=
  {| mti := Some (messageType m); data_elements := fields m |}.

(** A well-formed message: a non-empty type, one entry per code, and
    type, codes and values written in ASCII without the delimiters. *)
Definition clean (s : string) : Prop := delimiter_free s /\ all_ascii s = true.

Definition well_formed (m : WireMessage) : Prop :=
  messageType m <> EmptyString /\
  clean (messageType m) /\
  List.NoDup (keys (fields m)) /\
  Forall (fun kv => clean (fst kv) /\ clean (snd kv)) (fields m).

(** Encoding, sending the bytes as ASCII text, decoding. *)
Definition decode_encode (m : WireMessage) : option Iso8583Message :=
  match encode (messageType m) (fields m) with
  | Ok raw =>
      match decode_ascii raw with
      | Some text => Some (decoded text)
      | None => None
      end
  | Raise _ => None
  end.

(** The structural violations the specification names: a missing
    delimiter, a malformed pair, an empty type. *)
Definition missing_delimiter (s : string) : bool :=
  Nat.eqb (count "|" s) 0 || Nat.eqb (count ":" (segment1 s)) 0.

Definition malformed_pair (s : string) : bool :=
  existsb (fun e => Nat.eqb (count ":" e) 0) (elements s).

Definition empty_type (s : string) : bool := String.eqb (type_text s) EmptyString.

Definition structurally_invalid (s : string) : bool :=
  missing_delimiter s || malformed_pair s || empty_type s.

(** The required fields in the order the specification checks them, and
    the first one that is missing or false. *)
Definition required_fields : list string := ["amount"; "currency"; "cardNumber"; "protocol"].

Definition first_offending (data : gmap string PyVal) : option string :=
  List.find (fun field => negb (truthy (dict_get data field))) required_fields.

End Spec.

Import Spec.

(** ** Concrete requests, ledgers and worlds *)

Module Scenarios.

(** {"amount": 10.00, "currency": "USD", "cardNumber": "4111", "protocol": "VISA"} *)
Definition visa_request : gmap string PyVal :=
  <["amount" := PyFloat 10%float]>
    (<["currency" := PyStr "USD"]>
       (<["cardNumber" := PyStr "4111"]>
          (<["protocol" := PyStr "VISA"]> ∅))).

(** The same request with a full card number. *)
Definition card_request : gmap string PyVal :=
  <["cardNumber" := PyStr "4111111111111111"]> visa_request.

(** {"cardNumber": "4111", "protocol": "VISA"}: amount and currency missing. *)
Definition no_amount_no_currency : gmap string PyVal :=
  <["cardNumber" := PyStr "4111"]> (<["protocol" := PyStr "VISA"]> ∅).

(** {"amount": 10.00, "cardNumber": "4111", "protocol": "VISA"}: currency missing. *)
Definition no_currency : gmap string PyVal :=
  <["amount" := PyFloat 10%float]> no_amount_no_currency.

(** A Firestore that takes every document, and one that refuses every
    document. *)
Definition open_ledger : Firestore :=
  {| transactions := []; add_raises := fun _ _ => None |}.

Definition broken_ledger : Firestore :=
  {| transactions := []; add_raises := fun _ _ => Some (ExternalError "unavailable") |}.

(** A world where every [random.choice] returns [draw]. *)
Definition world (draw : bool) (d : option Firestore) : World :=
  {| db := d; app_id := "default-app-id"; choices := fun _ => draw;
     entropy := fun _ => x00; slept := 0; log := [] |}.

(** A settlement function that reports failure. *)
Definition failing_payout (amount : PyVal) (payout_type wallet_address : string)
  : M World PayoutResult :=
  ret {| payout_status := "failure"; payout_hash := None |}.

End Scenarios.

Import Scenarios.

(** ** More words for the codec: lookups, canonical texts, hashes *)

Module Lookup.

(** [d.get(k)] on an ordered dict. *)
Fixpoint dict_getitem {V} (k : string) (d : dict V) : option V :=
  match d with
  | [] => None
  | (k', v) :: rest => if String.eqb k' k then Some v else dict_getitem k rest
  end.

(** The value of the last of the pairs that has the key [k]. *)
Definition last_value (k : string) (kvs : list (string * string)) : option string :=
  fold_left (fun found kv => if String.eqb (fst kv) k then Some (snd kv) else found)
            kvs None.

(** The position of the first character outside the ASCII range. *)
Fixpoint first_non_ascii (s : string) : option nat :=
  match s with
  | EmptyString => None
  | String c rest =>
      if is_ascii c then
        match first_non_ascii rest with
        | Some i => Some (S i)
        | None => None
        end
      else Some 0
  end.

(** The bytes of an ASCII text. *)
Definition bytes_of (s : string) : list byte :=
  map byte_of_ascii (list_ascii_of_string s).

(** A text as [pack] writes it: the tag "MTI", one colon in the first
    segment, one "|", elements with one colon each and distinct codes,
    all in ASCII. *)
Definition canonical (s : string) : Prop :=
  before ":" (segment1 s) = "MTI" /\
  count ":" (segment1 s) = 1 /\
  count "|" s = 1 /\
  forallb pair_ok (elements s) = true /\
  List.NoDup (map (before ":") (elements s)) /\
  all_ascii s = true.

(** A lower-case hexadecimal digit. *)
Definition is_hex_digit (c : ascii) : bool :=
  existsb (Ascii.eqb c) (list_ascii_of_string "0123456789abcdef").

Fixpoint all_hex (s : string) : bool :=
  match s with
  | EmptyString => true
  | String c rest => is_hex_digit c && all_hex rest
  end.

(** The exceptions the body of [unpack] can raise. *)
Definition unpack_error (e : Exn) : Prop :=
  e = IndexError \/ e = ValueError_not_enough 1 \/ e = ValueError_too_many.

End Lookup.

Import Lookup.

(** ** The web terminal: routes and the payment endpoint *)

Module Web.

(** What a view can raise besides the exceptions of the pipeline. *)
Inductive WebExn : Type :=
| BadRequestKeyError (key : string)  (* request.form[key] on a form without the key *)
| JsonUnreadable                     (* request.json on a body that is no JSON *)
| AttributeError                     (* data.get on a value that is no dict *)
| Inner (e : Exn).                   (* raised inside process_payment_logic *)

Inductive WebLogRecord : Type :=
| LogWebPaymentError (e : WebExn).   (* error: "Error processing web payment: {e}" *)

(** The rules of the [@app.route] decorators. *)
Inductive Route : Type :=
| Index | LoginPage | CardPage | ProcessingPage | SuccessPage | RejectedPage
| ForgotPasswordPage | ResetPasswordPage | Logout | ProcessTransaction.

(** [url_for(endpoint)] *)
Definition url_for (endpoint : Route) : string :=
  match endpoint with
  | Index => "/"
  | LoginPage => "/login"
  | CardPage => "/card"
  | ProcessingPage => "/processing"
  | SuccessPage => "/success"
  | RejectedPage => "/rejected"
  | ForgotPasswordPage => "/forgot-password"
  | ResetPasswordPage => "/reset-password"
  | Logout => "/logout"
  | ProcessTransaction => "/api/process_transaction"
  end.

(** The methods for which Flask calls the view function of a rule:
    those of [methods=[...]] (GET when nothing is given), and HEAD
    wherever GET is among them.  [request.method] is in upper case. *)
Definition accepts (route : Route) (m : string) : bool :=
  match route with
  | LoginPage => String.eqb m "GET" || String.eqb m "HEAD" || String.eqb m "POST"
  | ProcessTransaction => String.eqb m "POST"
  | _ => String.eqb m "GET" || String.eqb m "HEAD"
  end.

(** The two dicts the payment endpoint hands to [jsonify]: a reply of the
    pipeline shape, or status and message only. *)
Inductive JsonBody : Type :=
| JsonReply (result : Reply)
| JsonStatusMessage (status_text message_text : string).

(** What a view function returns.  The templates are not part of the
    source file; [Render] stands for the page a template makes. *)
Inductive Response : Type :=
| Redirect (location : string)               (* redirect(location) *)
| Render (template : string)                 (* render_template(template) *)
| Json (body : JsonBody) (http_status : nat). (* jsonify(body), http_status *)

(** A view returns a response or lets an exception through to Flask. *)
Inductive Outcome : Type :=
| Respond (r : Response)
| Abort (e : WebExn).

(** What Flask does with a request to a rule: it calls the view
    function, or answers itself, 405 for a method the rule does not have
    and the automatic answer for OPTIONS. *)
Inductive Handled : Type :=
| Called (o : Outcome)
| MethodNotAllowed
| AutomaticOptions.

(** What the views read of a request.  [json_body] is None when
    [request.json] raises. *)
Record Request : Type := {
  method : string;
  form : gmap string string;
  json_body : option PyVal
}.

(** The session of the client, the log of the endpoint and the world of
    the pipeline.  Flask keeps [session.permanent] and the flashed
    messages inside the session (the latter under the key "_flashes"),
    so [session.clear()] removes them too. *)
Record App : Type := {
  session : gmap string PyVal;
  session_permanent : bool;
  web_log : list WebLogRecord;
  outside : World
}.

(** ['logged_in' in session] *)
Definition logged_in (app : App) : bool :=
  match session app !! "logged_in" with
  | Some _ => true
  | None => false
  end.

(** [session.get("_flashes", [])]: the list that earlier calls of
    [flash] have left. *)
Definition pending_flashes (app : App) : list PyVal :=
  match session app !! "_flashes" with
  | Some (PyList items) => items
  | _ => []
  end.

(** [flash(message, category)]: Flask appends the pair (category,
    message) to the list under "_flashes" and stores the list in the
    session. *)
Definition flash (message_text category : string) (app : App) : App :=
  {| session :=
       <["_flashes" :=
           PyList (pending_flashes app ++ [PyList [PyStr category; PyStr message_text]])]>
         (session app);
     session_permanent := session_permanent app;
     web_log := web_log app; outside := outside app |}.

(** [session.clear()] *)
Definition session_clear (app : App) : App :=
  {| session := ∅; session_permanent := false;
     web_log := web_log app; outside := outside app |}.

(** [session['logged_in'] = True; session.permanent = True] *)
Definition session_login (app : App) : App :=
  {| session := <["logged_in" := PyBool true]> (session app);
     session_permanent := true;
     web_log := web_log app; outside := outside app |}.

Definition with_outside (app : App) (w : World) : App :=
  {| session := session app; session_permanent := session_permanent app;
     web_log := web_log app; outside := w |}.

Definition logging_web_error (e : WebExn) (app : App) : App :=
  {| session := session app; session_permanent := session_permanent app;
     web_log := web_log app ++ [LogWebPaymentError e];
     outside := outside app |}.

Definition index (app : App) : Outcome * App :=
  if logged_in app then (Respond (Redirect (url_for CardPage)), app)
  else (Respond (Redirect (url_for LoginPage)), app).

(** [request.form[k] == 'admin' and request.form[k'] == 'password']: the
    password is looked up only when the user name is right. *)
Definition login_page (req : Request) (app : App) : Outcome * App :=
  if String.eqb (method req) "POST" then
    match form req !! "username" with
    | None => (Abort (BadRequestKeyError "username"), app)
    | Some username =>
        if String.eqb username "admin" then
          match form req !! "password" with
          | None => (Abort (BadRequestKeyError "password"), app)
          | Some password =>
              if String.eqb password "password" then
                (Respond (Redirect (url_for CardPage)), session_login app)
              else
                (Respond (Render "login.html"),
                 flash "Invalid username or password." "danger" app)
          end
        else
          (Respond (Render "login.html"),
           flash "Invalid username or password." "danger" app)
    end
  else (Respond (Render "login.html"), app).

Definition card_page (app : App) : Outcome * App :=
  if negb (logged_in app) then
    (Respond (Redirect (url_for LoginPage)),
     flash "You must be logged in to access this page." "warning" app)
  else (Respond (Render "card.html"), app).

Definition processing_page (app : App) : Outcome * App :=
  if negb (logged_in app) then (Respond (Redirect (url_for LoginPage)), app)
  else (Respond (Render "processing.html"), app).

Definition success_page (app : App) : Outcome * App :=
  if negb (logged_in app) then (Respond (Redirect (url_for LoginPage)), app)
  else (Respond (Render "success.html"), app).

Definition rejected_page (app : App) : Outcome * App :=
  if negb (logged_in app) then (Respond (Redirect (url_for LoginPage)), app)
  else (Respond (Render "rejected.html"), app).

Definition forgot_password_page (app : App) : Outcome * App :=
  (Respond (Render "forgot_password.html"), app).

Definition reset_password_page (app : App) : Outcome * App :=
  (Respond (Render "reset_password.html"), app).

Definition logout (app : App) : Outcome * App :=
  (Respond (Redirect (url_for LoginPage)),
   flash "You have been logged out." "info" (session_clear app)).

(** The dict a JSON object is parsed to: a later entry of the same key
    replaces an earlier one. *)
Definition dict_of_items (items : list (string * PyVal)) : gmap string PyVal :=
  fold_left (fun d kv => <[fst kv := snd kv]> d) items ∅.

(** The body of the 500 answer. *)
Definition internal_server_error : Reply :=
  {| status := "declined"; response_code := "99";
     message := "Internal Server Error"; blockchain_hash := None |}.

Definition handle_web_payment (req : Request) (app : App) : Outcome * App :=
  if negb (logged_in app) then
    (Respond (Json (JsonStatusMessage "error" "User not authenticated.") 401), app)
  else
    let failed (e : WebExn) (app' : App) :=
      (Respond (Json (JsonReply internal_server_error) 500), logging_web_error e app') in
    match json_body req with
    | None => failed JsonUnreadable app
    | Some (PyDict items) =>
        match process_payment_logic (dict_of_items items) (outside app) with
        | (Ok result, w) => (Respond (Json (JsonReply result) 200), with_outside app w)
        | (Raise e, w) => failed (Inner e) (with_outside app w)
        end
    | Some _ => failed AttributeError app
    end.

(** The view function of a rule, called on a request. *)
Definition call_view (route : Route) (req : Request) (app : App) : Outcome * App :=
  match route with
  | Index => index app
  | LoginPage => login_page req app
  | CardPage => card_page app
  | ProcessingPage => processing_page app
  | SuccessPage => success_page app
  | RejectedPage => rejected_page app
  | ForgotPasswordPage => forgot_password_page app
  | ResetPasswordPage => reset_password_page app
  | Logout => logout app
  | ProcessTransaction => handle_web_payment req app
  end.

(** A request to a rule: the view function is called when the rule has
    the method of the request; otherwise Flask answers and nothing
    changes. *)
Definition view (route : Route) (req : Request) (app : App) : Handled * App :=
  if accepts route (method req) then
    (Called (fst (call_view route req app)), snd (call_view route req app))
  else if String.eqb (method req) "OPTIONS" then (AutomaticOptions, app)
  else (MethodNotAllowed, app).

(** The application after a sequence of requests of one client. *)
Definition serve (requests : list (Route * Request)) (app : App) : App :=
  fold_left (fun a step => snd (view (fst step) (snd step) a)) requests app.

(** The routes behind the login. *)
Definition protected (route : Route) : bool :=
  match route with
  | CardPage | ProcessingPage | SuccessPage | RejectedPage | ProcessTransaction => true
  | _ => false
  end.

(** The answer of a protected view function to a client that is not
    logged in. *)
Definition refusal (route : Route) : Outcome :=
  match route with
  | ProcessTransaction =>
      Respond (Json (JsonStatusMessage "error" "User not authenticated.") 401)
  | _ => Respond (Redirect "/login")
  end.

(** What a client that is not logged in gets from a protected route:
    the refusal of the view function, or the answer of Flask to a method
    the rule does not have. *)
Definition turned_away (route : Route) (req : Request) : Handled :=
  if accepts route (method req) then Called (refusal route)
  else if String.eqb (method req) "OPTIONS" then AutomaticOptions
  else MethodNotAllowed.

(** A POST to /login with the user name and the password the view asks for. *)
Definition good_login (step : Route * Request) : Prop :=
  fst step = LoginPage /\
  method (snd step) = "POST" /\
  form (snd step) !! "username" = Some "admin" /\
  form (snd step) !! "password" = Some "password".

(** A request to /logout that reaches the view function. *)
Definition logs_out (step : Route * Request) : Prop :=
  fst step = Logout /\ accepts Logout (method (snd step)) = true.

(** Concrete requests and a client that has not logged in. *)
Definition get_request : Request := {| method := "GET"; form := ∅; json_body := None |}.

Definition post_request : Request := {| method := "POST"; form := ∅; json_body := None |}.

Definition post_login (username password : string) : Request :=
  {| method := "POST";
     form := <["username" := username]> (<["password" := password]> ∅);
     json_body := None |}.

Definition post_json (body : PyVal) : Request :=
  {| method := "POST"; form := ∅; json_body := Some body |}.

Definition visitor (w : World) : App :=
  {| session := ∅; session_permanent := false;
     web_log := []; outside := w |}.

End Web.

(** * Properties *)

(** ** Facts about split, join and the delimiters *)

Section TextFacts.

Lemma split_not_nil c s : split c s <> [].
Proof.
  destruct s as [|a r]; simpl; [discriminate|].
  destruct (Ascii.eqb a c); [discriminate|].
  destruct (split c r); discriminate.
Qed.

Lemma split_cut c s :
  split c s = before c s :: (if Nat.ltb 0 (count c s) then split c (after c s) else []).
Proof.
  induction s as [|a r IH]; simpl; [reflexivity|].
  destruct (Ascii.eqb a c); simpl; [reflexivity|].
  rewrite IH. reflexivity.
Qed.

Lemma length_split c s : length (split c s) = S (count c s).
Proof.
  induction s as [|a r IH]; simpl; [reflexivity|].
  destruct (Ascii.eqb a c); simpl; [now rewrite IH|].
  destruct (split c r) eqn:E; simpl in *; [discriminate|assumption].
Qed.

Lemma before_whole c s : count c s = 0 -> before c s = s.
Proof.
  induction s as [|a r IH]; simpl; [reflexivity|].
  destruct (Ascii.eqb a c); simpl; [discriminate|].
  intros H. now rewrite IH.
Qed.

Lemma count_before c s : count c (before c s) = 0.
Proof.
  induction s as [|a r IH]; simpl; [reflexivity|].
  destruct (Ascii.eqb a c) eqn:E; simpl; [reflexivity|].
  now rewrite E.
Qed.

Lemma count_after c s : count c (after c s) = pred (count c s).
Proof.
  induction s as [|a r IH]; simpl; [reflexivity|].
  destruct (Ascii.eqb a c); simpl; [reflexivity|assumption].
Qed.

Lemma split_whole c s : count c s = 0 -> split c s = [s].
Proof.
  intros H. rewrite split_cut, H. simpl. now rewrite before_whole.
Qed.

Lemma count_app c a b : count c (a +:+ b) = count c a + count c b.
Proof.
  induction a as [|x r IH]; simpl; [reflexivity|].
  rewrite IH. lia.
Qed.

Lemma before_app c a b : count c a = 0 -> before c (a +:+ String c b) = a.
Proof.
  induction a as [|x r IH]; simpl.
  - now rewrite Ascii.eqb_refl.
  - destruct (Ascii.eqb x c); simpl; [discriminate|].
    intros H. now rewrite IH.
Qed.

Lemma after_app c a b : count c a = 0 -> after c (a +:+ String c b) = b.
Proof.
  induction a as [|x r IH]; simpl.
  - now rewrite Ascii.eqb_refl.
  - destruct (Ascii.eqb x c); simpl; [discriminate|assumption].
Qed.

Lemma split_app c a b : count c a = 0 -> split c (a +:+ String c b) = a :: split c b.
Proof.
  intros H. rewrite split_cut, count_app, H. simpl.
  rewrite Ascii.eqb_refl. simpl.
  now rewrite before_app, after_app.
Qed.

(** [split] undoes [join] on a non-empty list of separator-free pieces. *)
Lemma split_join c pieces :
  pieces <> [] ->
  Forall (fun p => count c p = 0) pieces ->
  split c (join (String c EmptyString) pieces) = pieces.
Proof.
  induction pieces as [|p rest IH]; [congruence|].
  intros _ Hall. inversion Hall as [|? ? Hp Hrest]; subst.
  destruct rest as [|q rest'].
  - simpl. now apply split_whole.
  - change (join (String c EmptyString) (p :: q :: rest'))
      with (p +:+ String c EmptyString +:+ join (String c EmptyString) (q :: rest')).
    change (String c EmptyString +:+ join (String c EmptyString) (q :: rest'))
      with (String c (join (String c EmptyString) (q :: rest'))).
    rewrite split_app by assumption.
    rewrite IH; [reflexivity|discriminate|assumption].
Qed.

End TextFacts.

(** ** What [unpack] does, case by case *)

Section UnpackFacts.

Lemma unpack2_split element :
  unpack2 (split ":" element) =
  if pair_ok element then Ok (cut_pair element) else Raise (pair_error element).
Proof.
  unfold pair_ok, pair_error, cut_pair.
  rewrite split_cut.
  destruct (count ":" element) as [|[|n]] eqn:E; simpl.
  - reflexivity.
  - rewrite split_cut, count_after, E. simpl.
    rewrite (before_whole ":" (after ":" element)); [reflexivity|].
    now rewrite count_after, E.
  - rewrite split_cut, count_after, E. simpl.
    pose proof (split_not_nil ":" (after ":" (after ":" element))) as Hne.
    destruct (split ":" (after ":" (after ":" element))); [congruence|reflexivity].
Qed.

(** The loop over the elements stops at the first element that is not a
    pair, with the pairs in front of it stored. *)
Lemma for_in_elements els st :
  for_in els (fun element =>
      kv <- lift_res (unpack2 (split ":" element)) ;;
      setitem_data_element (fst kv) (snd kv)) st =
  (match first_bad els with
   | None => Ok tt
   | Some e => Raise (pair_error e)
   end,
   {| self := {| mti := mti (self st);
                 data_elements := store_all (leading_pairs els) (data_elements (self st)) |};
      logged := logged st |}).
Proof.
  revert st. induction els as [|e rest IH]; intros st.
  - destruct st as [[m d] l]. reflexivity.
  - cbn [for_in]. unfold bind at 1. unfold bind at 1. unfold lift_res at 1.
    rewrite unpack2_split.
    cbn [leading_pairs first_bad List.find].
    destruct (pair_ok e) eqn:Hok; cbn [negb].
    + unfold setitem_data_element, modify. rewrite IH.
      unfold first_bad. cbn [self mti data_elements logged store_all fold_left fst snd].
      reflexivity.
    + destruct st as [[m d] l]. reflexivity.
Qed.

Lemma first_bad_none els : first_bad els = None <-> forallb pair_ok els = true.
Proof.
  unfold first_bad. induction els as [|e rest IH]; simpl; [tauto|].
  destruct (pair_ok e); simpl; [exact IH|]. split; discriminate.
Qed.

(** [split] on "|" and on ":" in the words of [Wire]. *)
Lemma index_segment1 s : index (split "|" s) 0 = Ok (segment1 s).
Proof. rewrite split_cut. reflexivity. Qed.

Lemma index_type_text s :
  index (split ":" (segment1 s)) 1 =
  if Nat.ltb 0 (count ":" (segment1 s)) then Ok (type_text s) else Raise IndexError.
Proof.
  rewrite split_cut. destruct (Nat.ltb 0 (count ":" (segment1 s))); [|reflexivity].
  rewrite split_cut. reflexivity.
Qed.

Lemma index_segment2 s :
  index (split "|" s) 1 =
  if Nat.ltb 0 (count "|" s) then Ok (segment2 s) else Raise IndexError.
Proof.
  rewrite split_cut. destruct (Nat.ltb 0 (count "|" s)); [|reflexivity].
  rewrite split_cut. reflexivity.
Qed.

(** The whole of [decode], by cases on the text. *)
Lemma decode_cases s :
  decode s =
  (Ok tt,
   if Nat.ltb 0 (count ":" (segment1 s)) then
     if Nat.ltb 0 (count "|" s) then
       match first_bad (elements s) with
       | None =>
           {| self := {| mti := Some (type_text s);
                         data_elements := store_all (leading_pairs (elements s)) [] |};
              logged := [] |}
       | Some e =>
           {| self := {| mti := Some "ERROR";
                         data_elements := store_all (leading_pairs (elements s)) [] |};
              logged := [LogUnpackFailed (pair_error e)] |}
       end
     else {| self := {| mti := Some "ERROR"; data_elements := [] |};
             logged := [LogUnpackFailed IndexError] |}
   else {| self := {| mti := Some "ERROR"; data_elements := [] |};
           logged := [LogUnpackFailed IndexError] |}).
Proof.
  unfold decode, unpack, try_except, unpack_body.
  unfold bind at 1. unfold lift_res at 1. rewrite index_segment1.
  unfold bind at 1. unfold lift_res at 1. rewrite index_type_text.
  destruct (Nat.ltb 0 (count ":" (segment1 s))); [|reflexivity].
  unfold bind at 1. unfold set_mti at 1, modify at 1.
  unfold bind at 1. unfold lift_res at 1. rewrite index_segment2.
  destruct (Nat.ltb 0 (count "|" s)); [|reflexivity].
  rewrite for_in_elements. fold (elements s).
  destruct (first_bad (elements s)); reflexivity.
Qed.

End UnpackFacts.

(** ** Encoding followed by decoding *)

Section RoundTrip.

Lemma append_assoc (a b c : string) : (a +:+ b) +:+ c = a +:+ (b +:+ c).
Proof.
  induction a as [|x r IH]; [reflexivity|].
  change (String x ((r +:+ b) +:+ c) = String x (r +:+ (b +:+ c))).
  now rewrite IH.
Qed.

Lemma all_ascii_app a b : all_ascii (a +:+ b) = all_ascii a && all_ascii b.
Proof.
  induction a as [|x r IH]; simpl; [reflexivity|].
  rewrite IH. now rewrite andb_assoc.
Qed.

Lemma encode_ascii_from_ok pos s :
  all_ascii s = true ->
  encode_ascii_from pos s = Ok (map byte_of_ascii (list_ascii_of_string s)).
Proof.
  revert pos. induction s as [|a r IH]; intros pos; simpl; [reflexivity|].
  intros H. apply andb_prop in H as [Ha Hr]. rewrite Ha, (IH (S pos) Hr). reflexivity.
Qed.

Lemma decode_ascii_bytes s :
  all_ascii s = true ->
  decode_ascii (map byte_of_ascii (list_ascii_of_string s)) = Some s.
Proof.
  induction s as [|a r IH]; simpl; [reflexivity|].
  intros H. apply andb_prop in H as [Ha Hr].
  rewrite ascii_of_byte_of_ascii, Ha, (IH Hr). reflexivity.
Qed.

Lemma encode_packed_text m flds : encode m flds = encode_ascii (packed_text m flds).
Proof. reflexivity. Qed.

Lemma clean_render kv :
  clean (fst kv) -> clean (snd kv) ->
  count "|" (render kv) = 0 /\ count "," (render kv) = 0 /\
  count ":" (render kv) = 1 /\ all_ascii (render kv) = true /\
  cut_pair (render kv) = kv.
Proof.
  intros [(Hk1 & Hk2 & Hk3) Hka] [(Hv1 & Hv2 & Hv3) Hva].
  unfold render, cut_pair. destruct kv as [k v]; simpl in *.
  rewrite !count_app, !all_ascii_app. simpl.
  rewrite Hk1, Hk2, Hk3, Hv1, Hv2, Hv3, Hka, Hva.
  change (":" +:+ v) with (String ":" v).
  rewrite before_app, after_app by assumption.
  repeat split; reflexivity.
Qed.

Lemma count_join c sep pieces :
  count c sep = 0 ->
  Forall (fun p => count c p = 0) pieces ->
  count c (join sep pieces) = 0.
Proof.
  intros Hsep. induction 1 as [|p rest Hp Hrest IH]; [reflexivity|].
  destruct rest as [|q rest']; [exact Hp|].
  change (join sep (p :: q :: rest')) with (p +:+ sep +:+ join sep (q :: rest')).
  rewrite !count_app, Hp, Hsep, IH. reflexivity.
Qed.

Lemma all_ascii_join sep pieces :
  all_ascii sep = true ->
  Forall (fun p => all_ascii p = true) pieces ->
  all_ascii (join sep pieces) = true.
Proof.
  intros Hsep. induction 1 as [|p rest Hp Hrest IH]; [reflexivity|].
  destruct rest as [|q rest']; [exact Hp|].
  change (join sep (p :: q :: rest')) with (p +:+ sep +:+ join sep (q :: rest')).
  rewrite !all_ascii_app, Hp, Hsep, IH. reflexivity.
Qed.

(** Storing pairs with distinct keys, none of them in the dict yet, puts
    them behind the dict in their order. *)
Lemma dict_setitem_new {V} k (v : V) d :
  ~ In k (keys d) -> dict_setitem k v d = d ++ [(k, v)].
Proof.
  induction d as [|[k' v'] rest IH]; simpl; [reflexivity|].
  intros Hnot. destruct (String.eqb k' k) eqn:E.
  - apply String.eqb_eq in E. tauto.
  - rewrite IH; [reflexivity|tauto].
Qed.

Lemma store_all_new kvs d :
  List.NoDup (keys d ++ keys kvs) -> store_all kvs d = d ++ kvs.
Proof.
  revert d. induction kvs as [|[k v] rest IH]; intros d Hnd; simpl.
  - now rewrite app_nil_r.
  - unfold store_all in *. simpl.
    assert (Hk : ~ In k (keys d)).
    { intros Hin. simpl in Hnd. apply List.NoDup_remove_2 in Hnd. apply Hnd.
      apply in_or_app. now left. }
    rewrite dict_setitem_new by assumption.
    rewrite IH.
    + now rewrite <- app_assoc.
    + unfold keys in *. rewrite map_app, <- app_assoc. simpl. exact Hnd.
Qed.

Lemma leading_pairs_render flds :
  Forall (fun kv => clean (fst kv) /\ clean (snd kv)) flds ->
  leading_pairs (map render flds) = flds /\ first_bad (map render flds) = None.
Proof.
  induction 1 as [|kv rest [Hk Hv] Hrest [IH1 IH2]]; [split; reflexivity|].
  destruct (clean_render kv Hk Hv) as (_ & _ & Hc & _ & Hcut).
  unfold first_bad in *. simpl. unfold pair_ok. rewrite Hc. simpl.
  rewrite Hcut, IH1. split; [reflexivity|exact IH2].
Qed.

(** The text of a well-formed message with at least one field decodes to
    the message. *)
Lemma decoded_packed_text m :
  well_formed m -> fields m <> [] ->
  decoded (packed_text (messageType m) (fields m)) = as_object m.
Proof.
  intros (_ & [(Ht1 & Ht2 & Ht3) _] & Hnd & Hall) Hne.
  destruct m as [t flds]; simpl in *.
  assert (Hparts : Forall (fun p => count "|" p = 0 /\ count "," p = 0) (map render flds)).
  { apply List.Forall_map. eapply List.Forall_impl; [|exact Hall].
    intros kv [Hk Hv]. destruct (clean_render kv Hk Hv) as (H1 & H2 & _). now split. }
  assert (Hbody : count "|" (join "," (map render flds)) = 0).
  { apply count_join; [reflexivity|].
    eapply List.Forall_impl; [|exact Hparts]. now intros p [H _]. }
  assert (Hshape : packed_text t flds
                   = ("MTI:" +:+ t) +:+ String "|" (join "," (map render flds))).
  { unfold packed_text. now rewrite append_assoc. }
  assert (Hhead : count "|" ("MTI:" +:+ t) = 0) by (simpl; exact Ht1).
  assert (Hseg1 : segment1 (packed_text t flds) = "MTI:" +:+ t).
  { unfold segment1. rewrite Hshape. now apply before_app. }
  assert (Hseg2 : segment2 (packed_text t flds) = join "," (map render flds)).
  { unfold segment2. rewrite Hshape, after_app by assumption. now apply before_whole. }
  assert (Hbar : count "|" (packed_text t flds) = 1).
  { rewrite Hshape, count_app, Hhead. simpl. now rewrite Hbody. }
  assert (Hels : elements (packed_text t flds) = map render flds).
  { unfold elements. rewrite Hseg2. apply split_join.
    - destruct flds; [congruence|discriminate].
    - eapply List.Forall_impl; [|exact Hparts]. now intros p [_ H]. }
  destruct (leading_pairs_render flds Hall) as [Hlead Hbad].
  unfold decoded. rewrite decode_cases, Hseg1, Hbar, Hels, Hbad, Hlead.
  simpl. unfold type_text. rewrite Hseg1. simpl.
  rewrite before_whole by assumption.
  unfold as_object. simpl. f_equal.
  apply (store_all_new flds []). exact Hnd.
Qed.

Lemma all_ascii_packed_text m :
  well_formed m -> all_ascii (packed_text (messageType m) (fields m)) = true.
Proof.
  intros (_ & [_ Ha] & _ & Hall). unfold packed_text.
  rewrite !all_ascii_app, Ha. simpl.
  apply all_ascii_join; [reflexivity|].
  apply List.Forall_map. eapply List.Forall_impl; [|exact Hall].
  intros kv [Hk Hv]. now destruct (clean_render kv Hk Hv) as (_ & _ & _ & H & _).
Qed.

(** C1 (codec round trip, amended).  For every well-formed message (a
    non-empty type, one entry per code, and type, codes and values in
    ASCII without "|", "," and ":") that has at least one field, decoding
    the bytes that encoding produces gives the message back: the same
    type and the same fields in the same order. *)
Theorem round_trip m :
  well_formed m -> fields m <> [] -> decode_encode m = Some (as_object m).
Proof.
  intros Hwf Hne. unfold decode_encode.
  rewrite encode_packed_text. unfold encode_ascii.
  rewrite encode_ascii_from_ok by now apply all_ascii_packed_text.
  rewrite decode_ascii_bytes by now apply all_ascii_packed_text.
  now rewrite decoded_packed_text.
Qed.

End RoundTrip.

(** ** The decoded object in terms of the text *)

Section Decoded.

Lemma decode_never_raises s : fst (decode s) = Ok tt.
Proof. now rewrite decode_cases. Qed.

Lemma decoded_mti s :
  mti (decoded s) =
  Some (if framed s && forallb pair_ok (elements s) then type_text s else "ERROR").
Proof.
  unfold decoded, framed. rewrite decode_cases. cbn [snd].
  destruct (Nat.ltb 0 (count ":" (segment1 s))); [|reflexivity].
  destruct (Nat.ltb 0 (count "|" s)); [|reflexivity].
  cbn [andb].
  destruct (first_bad (elements s)) eqn:E.
  - destruct (forallb pair_ok (elements s)) eqn:F; [|reflexivity].
    apply first_bad_none in F. congruence.
  - apply first_bad_none in E. now rewrite E.
Qed.

Lemma decoded_fields s :
  data_elements (decoded s) =
  if framed s then store_all (leading_pairs (elements s)) [] else [].
Proof.
  unfold decoded, framed. rewrite decode_cases. cbn [snd].
  destruct (Nat.ltb 0 (count ":" (segment1 s))); [|reflexivity].
  destruct (Nat.ltb 0 (count "|" s)); [|reflexivity].
  cbn [andb]. destruct (first_bad (elements s)); reflexivity.
Qed.

Lemma framed_missing_delimiter s : framed s = negb (missing_delimiter s).
Proof.
  unfold framed, missing_delimiter.
  destruct (count "|" s), (count ":" (segment1 s)); reflexivity.
Qed.

Lemma forallb_pair_ok_false els :
  forallb pair_ok els = false <-> exists e, In e els /\ count ":" e <> 1.
Proof.
  split.
  - intros H. apply not_true_iff_false in H.
    assert (Hex : existsb (fun e => negb (pair_ok e)) els = true).
    { destruct (existsb (fun e => negb (pair_ok e)) els) eqn:E; [reflexivity|].
      exfalso. apply H. apply forallb_forall. intros e He.
      destruct (pair_ok e) eqn:P; [reflexivity|].
      assert (existsb (fun e => negb (pair_ok e)) els = true)
        by (apply existsb_exists; exists e; now rewrite P).
      congruence. }
    apply existsb_exists in Hex as (e & He & Hbad).
    exists e. split; [exact He|].
    unfold pair_ok in Hbad. intros Hc. rewrite Hc in Hbad. discriminate.
  - intros (e & He & Hbad).
    destruct (forallb pair_ok els) eqn:F; [|reflexivity].
    exfalso. apply Hbad.
    pose proof (proj1 (forallb_forall pair_ok els) F e He) as P.
    unfold pair_ok in P. now apply Nat.eqb_eq in P.
Qed.

(** Texts that differ in front of the first colon or behind the second
    segment only. *)
Lemma before_app_other c a b : count c a = 0 -> before c (a +:+ b) = a +:+ before c b.
Proof.
  induction a as [|x r IH]; [reflexivity|].
  change (String x r +:+ b) with (String x (r +:+ b)).
  change (String x r +:+ before c b) with (String x (r +:+ before c b)).
  simpl. destruct (Ascii.eqb x c); [discriminate|].
  intros H. now rewrite IH.
Qed.

Lemma after_app_other c a b : count c a = 0 -> after c (a +:+ b) = after c b.
Proof.
  induction a as [|x r IH]; [reflexivity|].
  change (String x r +:+ b) with (String x (r +:+ b)).
  simpl. destruct (Ascii.eqb x c); [discriminate|exact IH].
Qed.

Lemma cut_at_first c s :
  0 < count c s -> s = before c s +:+ String c (after c s).
Proof.
  induction s as [|x r IH]; simpl; [lia|].
  destruct (Ascii.eqb x c) eqn:E.
  - intros _. apply Ascii.eqb_eq in E. now subst.
  - simpl. intros H.
    change (String x (before c r) +:+ String c (after c r))
      with (String x (before c r +:+ String c (after c r))).
    now rewrite <- IH.
Qed.

(** [decode] looks at the first two segments only, and not at the tag. *)
Lemma decode_by_parts s s' :
  segment1 s' = segment1 s \/
    (0 < count ":" (segment1 s) /\ 0 < count ":" (segment1 s') /\ type_text s' = type_text s) ->
  Nat.ltb 0 (count "|" s') = Nat.ltb 0 (count "|" s) ->
  segment2 s' = segment2 s ->
  decode s' = decode s.
Proof.
  intros H1 Hbar H2. rewrite !decode_cases. unfold elements. rewrite Hbar, H2.
  destruct H1 as [H1|(Ha & Hb & Ht)].
  - unfold type_text. now rewrite H1.
  - rewrite Ht.
    destruct (count ":" (segment1 s)); [lia|].
    destruct (count ":" (segment1 s')); [lia|]. reflexivity.
Qed.

End Decoded.

(** ** The codec properties *)

Section CodecClaims.

(** C1, as stated, fails at the empty field map: the message with type
    "0200" and no field is well-formed, [pack] encodes it as the bytes of
    "MTI:0200|" (type line, empty data segment), and [unpack] of that
    text finds the one element "" in the data segment, fails on it and
    leaves the type 'ERROR'. *)
Lemma round_trip_counterexample :
  ~ (forall m, well_formed m -> decode_encode m = Some (as_object m)) /\
  well_formed {| messageType := "0200"; fields := [] |} /\
  encode "0200" [] = Ok (map byte_of_ascii (list_ascii_of_string "MTI:0200|")) /\
  decode_encode {| messageType := "0200"; fields := [] |}
    = Some {| mti := Some "ERROR"; data_elements := [] |}.
Proof.
  assert (Hwf : well_formed {| messageType := "0200"; fields := [] |}).
  { unfold well_formed, clean, delimiter_free. simpl.
    repeat split; try reflexivity; try discriminate; constructor. }
  split; [|split; [exact Hwf|split; reflexivity]].
  intros H. specialize (H _ Hwf). discriminate H.
Qed.

Lemma round_trip_witness :
  decode_encode {| messageType := "0200";
                   fields := [("39", "00"); ("02", "4111111111111111")] |}
  = Some {| mti := Some "0200";
            data_elements := [("39", "00"); ("02", "4111111111111111")] |}.
Proof.
  apply (round_trip {| messageType := "0200";
                       fields := [("39", "00"); ("02", "4111111111111111")] |}).
  - unfold well_formed, clean, delimiter_free. simpl.
    repeat split; try reflexivity; try discriminate.
    + repeat constructor; simpl; intuition discriminate.
    + repeat constructor.
  - discriminate.
Defined.

(** C3, as stated, fails: a malformed pair behind a good one leaves the
    good pair in the field map, and an empty type is no failure. *)
Lemma decode_failure_counterexample :
  ~ (forall s, structurally_invalid s = true ->
               decoded s = {| mti := Some "ERROR"; data_elements := [] |}) /\
  structurally_invalid "MTI:0200|39:00,bad" = true /\
  decoded "MTI:0200|39:00,bad"
    = {| mti := Some "ERROR"; data_elements := [("39", "00")] |} /\
  structurally_invalid "MTI:|39:00" = true /\
  decoded "MTI:|39:00" = {| mti := Some ""; data_elements := [("39", "00")] |}.
Proof.
  split; [|repeat split].
  intros H. specialize (H "MTI:0200|39:00,bad" eq_refl). discriminate H.
Qed.

(** C3 (decode failure postcondition, amended).  A text without "|",
    without a colon in its first segment, or with an element of the data
    segment that has not exactly one colon decodes to the type "ERROR";
    the field map is empty when a delimiter is missing or the first
    element is already malformed. *)
Theorem decode_failure_postcondition s :
  missing_delimiter s = true \/ (exists e, In e (elements s) /\ count ":" e <> 1) ->
  mti (decoded s) = Some "ERROR" /\
  (missing_delimiter s = true \/ leading_pairs (elements s) = [] ->
   data_elements (decoded s) = []).
Proof.
  intros H. rewrite decoded_mti, decoded_fields, framed_missing_delimiter. split.
  - destruct H as [H|H].
    + now rewrite H.
    + apply forallb_pair_ok_false in H. rewrite H. now rewrite andb_false_r.
  - intros [H'|H'].
    + now rewrite H'.
    + rewrite H'. now destruct (negb (missing_delimiter s)).
Qed.

Lemma decode_failure_postcondition_witness :
  mti (decoded "MTI:0200|bad,39:00") = Some "ERROR" /\
  data_elements (decoded "MTI:0200|bad,39:00") = [].
Proof.
  assert (Hbad : exists e, In e (elements "MTI:0200|bad,39:00") /\ count ":" e <> 1).
  { exists "bad". split; [left; reflexivity|discriminate]. }
  destruct (decode_failure_postcondition "MTI:0200|bad,39:00" (or_intror Hbad)) as [Hm Hf].
  split; [exact Hm|]. apply Hf. right. reflexivity.
Defined.

(** C7, as stated, fails: a text with an empty type is structurally
    invalid and decodes without 'ERROR'. *)
Lemma decode_totality_counterexample :
  ~ (forall s, fst (decode s) = Ok tt /\
               (structurally_invalid s = true -> mti (decoded s) = Some "ERROR")) /\
  empty_type "MTI:|39:00" = true /\
  mti (decoded "MTI:|39:00") = Some "".
Proof.
  split; [|split; reflexivity].
  intros H. destruct (H "MTI:|39:00") as [_ H']. specialize (H' eq_refl). discriminate H'.
Qed.

(** C7 (decode totality, amended).  [unpack] returns normally on every
    text, and the decoded type is "ERROR" exactly when a delimiter is
    missing, an element of the data segment has not exactly one colon, or
    the text itself carries the type "ERROR"; an empty type is decoded as
    it stands. *)
Theorem decode_total s :
  fst (decode s) = Ok tt /\
  (mti (decoded s) = Some "ERROR" <->
   missing_delimiter s = true \/
   (exists e, In e (elements s) /\ count ":" e <> 1) \/
   type_text s = "ERROR").
Proof.
  split; [apply decode_never_raises|].
  rewrite decoded_mti, framed_missing_delimiter.
  destruct (missing_delimiter s); cbn [negb andb]; [tauto|].
  destruct (forallb pair_ok (elements s)) eqn:F.
  - split.
    + intros H. right. right. congruence.
    + intros [H|[H|H]]; [discriminate| |congruence].
      apply forallb_pair_ok_false in H. congruence.
  - apply forallb_pair_ok_false in F. tauto.
Qed.

Lemma decode_total_witness :
  mti (decoded "garbage") = Some "ERROR" /\
  mti (decoded "MTI:ERROR|") = Some "ERROR" /\
  mti (decoded "MTI:0200|39:00,oops") = Some "ERROR".
Proof.
  split; [|split].
  - apply (proj2 (decode_total "garbage")). left. reflexivity.
  - apply (proj2 (decode_total "MTI:ERROR|")). right. right. reflexivity.
  - apply (proj2 (decode_total "MTI:0200|39:00,oops")). right. left.
    exists "oops". split; [right; left; reflexivity|discriminate].
Defined.

(** C10, as stated, fails: a colon in the first segment does not make
    its text the type when the data segment is missing or malformed. *)
Lemma tag_not_verified_counterexample :
  ~ (forall s, 0 < count ":" (segment1 s) -> mti (decoded s) = Some (type_text s)) /\
  type_text "XTI:0200" = "0200" /\
  mti (decoded "XTI:0200") = Some "ERROR" /\
  mti (decoded "XTI:0200|39") = Some "ERROR".
Proof.
  split; [|repeat split].
  intros H. specialize (H "XTI:0200" ltac:(simpl; lia)). discriminate H.
Qed.

(** C10 (the tag is not verified, amended).  For a text whose first
    segment has a colon: when the data segment is there and each of its
    elements has exactly one colon, the decoded type is the text between
    the first and the second colon of the first segment; whatever stands
    in front of the first colon has no influence on the result of
    [unpack]; and neither have the segments behind the second. *)
Theorem tag_not_verified s :
  0 < count ":" (segment1 s) ->
  (0 < count "|" s -> forallb pair_ok (elements s) = true ->
   mti (decoded s) = Some (type_text s)) /\
  (forall tag, count ":" tag = 0 -> count "|" tag = 0 ->
   decode (tag +:+ String ":" (after ":" s)) = decode s) /\
  (0 < count "|" s ->
   decode (segment1 s +:+ String "|" (segment2 s)) = decode s).
Proof.
  intros Hcolon. split; [|split].
  - intros Hbar Hok. rewrite decoded_mti. unfold framed. rewrite Hok.
    destruct (count ":" (segment1 s)); [lia|].
    destruct (count "|" s); [lia|]. reflexivity.
  - intros tag Ht1 Ht2.
    assert (Hs : 0 < count ":" s).
    { unfold segment1 in Hcolon. clear -Hcolon.
      induction s as [|x r IH]; simpl in *; [lia|].
      destruct (Ascii.eqb x "|"); simpl in *; [lia|].
      destruct (Ascii.eqb x ":"); simpl in *; lia. }
    assert (Hfront : count "|" (before ":" s) = 0).
    { unfold segment1 in Hcolon. clear -Hcolon.
      induction s as [|x r IH]; simpl in *; [reflexivity|].
      destruct (Ascii.eqb x ":") eqn:E; simpl in *; [reflexivity|].
      destruct (Ascii.eqb x "|"); simpl in *; [lia|].
      rewrite E in Hcolon. apply IH. exact Hcolon. }
    pose proof (cut_at_first ":" s Hs) as Hcut.
    set (r := after ":" s) in *.
    assert (Hshape : forall t, count ":" t = 0 -> count "|" t = 0 ->
              segment1 (t +:+ String ":" r) = t +:+ String ":" (before "|" r) /\
              after "|" (t +:+ String ":" r) = after "|" r /\
              count "|" (t +:+ String ":" r) = count "|" r).
    { intros t Hc Hb. unfold segment1.
      rewrite before_app_other, after_app_other, count_app by assumption.
      rewrite Hb. repeat split. }
    destruct (Hshape tag Ht1 Ht2) as (A1 & A2 & A3).
    destruct (Hshape (before ":" s) (count_before ":" s) Hfront) as (B1 & B2 & B3).
    rewrite <- Hcut in B1, B2, B3.
    apply decode_by_parts.
    + right. split; [exact Hcolon|]. split.
      * rewrite A1, count_app, Ht1. simpl. lia.
      * unfold type_text. rewrite A1, B1.
        rewrite !after_app by (assumption || apply count_before). reflexivity.
    + now rewrite A3, B3.
    + unfold segment2. now rewrite A2, B2.
  - intros Hbar.
    pose proof (count_before "|" s) as H1.
    pose proof (count_before "|" (after "|" s)) as H2.
    apply decode_by_parts.
    + left. unfold segment1 at 1. now apply before_app.
    + rewrite count_app. unfold segment1. rewrite H1.
      simpl. unfold segment2. rewrite H2.
      destruct (count "|" s); [lia|reflexivity].
    + unfold segment2 at 1. rewrite after_app by exact H1.
      unfold segment2. now apply before_whole.
Qed.

Lemma tag_not_verified_witness :
  mti (decoded "XTI:0200|39:00") = Some "0200" /\
  decode "ZZZ:0200|39:00|junk" = decode "XTI:0200|39:00|junk" /\
  decode "XTI:0200|39:00" = decode "XTI:0200|39:00|junk".
Proof.
  split; [|split].
  - apply (proj1 (tag_not_verified "XTI:0200|39:00" ltac:(simpl; lia)));
      [simpl; lia|reflexivity].
  - apply (proj1 (proj2 (tag_not_verified "XTI:0200|39:00|junk" ltac:(simpl; lia)))
             "ZZZ"); reflexivity.
  - apply (proj2 (proj2 (tag_not_verified "XTI:0200|39:00|junk" ltac:(simpl; lia)))).
    simpl; lia.
Defined.

End CodecClaims.

(** ** Runs of the pipeline *)

Section PipelineRuns.

Lemma initiate_payout_run amount payout_type wallet w :
  initiate_payout amount payout_type wallet w =
  (Ok {| payout_status := "success"; payout_hash := Some (next_hash w) |},
   {| db := db w; app_id := app_id w; choices := choices w;
      entropy := fun i => entropy w (32 + i);
      slept := slept w + 1;
      log := (log w ++ [LogPayoutInitiating amount payout_type wallet])
               ++ [LogPayoutSuccessful (next_hash w)] |}).
Proof. reflexivity. Qed.

Lemma log_transaction_run user_id data result w :
  log_transaction_to_firestore user_id data result w =
  (Ok tt, after_ledger user_id (doc_of data result) w).
Proof.
  unfold log_transaction_to_firestore, after_ledger, bind, get.
  destruct (db w) as [fs|] eqn:Hdb; [|reflexivity].
  destruct (truthy user_id); [|reflexivity].
  unfold try_except, bind, firestore_add. fold (doc_of data result).
  destruct (add_raises fs user_id (doc_of data result)); reflexivity.
Qed.

(** [process_payment_logic] by cases: the presence check, the draw, the
    payout, and then the ledger step. *)
Lemma process_run payout data w :
  process_payment_logic_with payout data w =
  if all (required data) then
    if choices w 0 then
      match payout (dict_get data "amount") "USDT_TRC20" merchant_wallet
                   (snd (random_choice w)) with
      | (Ok pr, w') =>
          let reply := if String.eqb (payout_status pr) "success"
                       then reply_00 (payout_hash pr) else reply_05 in
          (Ok reply, after_ledger (user_id_of data) (doc_of data reply) w')
      | (Raise e, w') => (Raise e, w')
      end
    else (Ok reply_51,
          after_ledger (user_id_of data) (doc_of data reply_51) (snd (random_choice w)))
  else (Ok reply_99, w).
Proof.
  unfold process_payment_logic_with. fold (required data). fold (user_id_of data).
  destruct (all (required data)); [|reflexivity].
  cbn [negb]. unfold bind at 1. unfold random_choice. cbn [snd].
  destruct (choices w 0).
  - unfold bind at 1. unfold bind at 1. fold merchant_wallet.
    match goal with |- context [payout ?a ?b ?c ?d] => destruct (payout a b c d) as [[pr|e] w'] end;
      [|reflexivity].
    destruct (String.eqb (payout_status pr) "success");
      unfold ret; unfold bind; rewrite log_transaction_run; reflexivity.
  - unfold bind, ret. rewrite log_transaction_run. reflexivity.
Qed.

Lemma process_run_stub data w :
  process_payment_logic data w =
  if all (required data) then
    if choices w 0 then
      (Ok (reply_00 (Some (next_hash w))),
       after_ledger (user_id_of data) (doc_of data (reply_00 (Some (next_hash w))))
                    (snd (initiate_payout (dict_get data "amount") "USDT_TRC20"
                                          merchant_wallet (snd (random_choice w)))))
    else (Ok reply_51,
          after_ledger (user_id_of data) (doc_of data reply_51) (snd (random_choice w)))
  else (Ok reply_99, w).
Proof.
  unfold process_payment_logic. rewrite process_run.
  destruct (all (required data)); [|reflexivity].
  destruct (choices w 0); [|reflexivity].
  rewrite initiate_payout_run. reflexivity.
Qed.

(** The ledger step changes the Firestore handle and the log, nothing
    else, and what it does to the log is one more record. *)
Lemma after_ledger_log user_id doc w :
  exists r, log (after_ledger user_id doc w) = log w ++ [r] /\
            ledger_log_line user_id doc w r.
Proof.
  unfold after_ledger, ledger_log_line.
  destruct (db w) as [fs|] eqn:Hdb; [|eexists; split; [reflexivity|now left]].
  destruct (truthy user_id); [|eexists; split; [reflexivity|now left]].
  destruct (add_raises fs user_id doc) as [e|] eqn:Hadd;
    eexists; (split; [reflexivity|]).
  - right. right. exists fs, e. now repeat split.
  - right. now left.
Qed.

End PipelineRuns.

(** ** The pipeline properties *)

Section PipelineClaims.

Lemma first_offending_all data :
  first_offending data = None <-> all (required data) = true.
Proof.
  unfold first_offending, required_fields, all, required. simpl.
  destruct (truthy (dict_get data "amount")); simpl; [|split; discriminate].
  destruct (truthy (dict_get data "currency")); simpl; [|split; discriminate].
  destruct (truthy (dict_get data "cardNumber")); simpl; [|split; discriminate].
  destruct (truthy (dict_get data "protocol")); simpl; [tauto|split; discriminate].
Qed.

(** C4 (settlement-failure isolation).  For a request that passes the
    presence check and that the draw approves, a settlement call that
    returns a status other than "success" leaves the outcome approved,
    with code "05" and a null settlement hash, never "51"; and this is
    the outcome handed to the ledger step. *)
Theorem settlement_failure_isolation payout data w pr w' :
  all (required data) = true ->
  choices w 0 = true ->
  payout (dict_get data "amount") "USDT_TRC20" merchant_wallet (snd (random_choice w))
    = (Ok pr, w') ->
  payout_status pr <> "success" ->
  exists reply,
    process_payment_logic_with payout data w
      = (Ok reply, after_ledger (user_id_of data) (doc_of data reply) w') /\
    status reply = "approved" /\
    response_code reply = "05" /\
    blockchain_hash reply = Some None /\
    response_code reply <> "51".
Proof.
  intros Hall Hdraw Hpay Hfail.
  exists reply_05. rewrite process_run, Hall, Hdraw, Hpay.
  apply String.eqb_neq in Hfail. rewrite Hfail. cbn zeta.
  repeat split. discriminate.
Qed.

Lemma settlement_failure_isolation_witness :
  exists reply,
    fst (process_payment_logic_with failing_payout visa_request (world true None)) = Ok reply /\
    status reply = "approved" /\ response_code reply = "05" /\
    blockchain_hash reply = Some None.
Proof.
  destruct (settlement_failure_isolation failing_payout visa_request (world true None)
              {| payout_status := "failure"; payout_hash := None |}
              (snd (random_choice (world true None))))
    as (reply & Hrun & Hs & Hc & Hh & _).
  - vm_compute. reflexivity.
  - reflexivity.
  - reflexivity.
  - discriminate.
  - exists reply. rewrite Hrun. repeat split; assumption.
Defined.

(** C9 (the settlement stub always succeeds).  [initiate_payout] returns
    status "success" with a hash on every call and logs its two info
    lines, never the failure line of its handler; so
    [process_payment_logic] returns normally on every request, never with
    code "05", and an approved reply has code "00" and a hash. *)
Theorem payout_stub_always_succeeds :
  (forall amount payout_type wallet w,
     fst (initiate_payout amount payout_type wallet w)
       = Ok {| payout_status := "success"; payout_hash := Some (next_hash w) |} /\
     log (snd (initiate_payout amount payout_type wallet w))
       = log w ++ [LogPayoutInitiating amount payout_type wallet;
                   LogPayoutSuccessful (next_hash w)]) /\
  (forall data w,
     exists reply,
       fst (process_payment_logic data w) = Ok reply /\
       response_code reply <> "05" /\
       (status reply = "approved" ->
        response_code reply = "00" /\ exists h, blockchain_hash reply = Some (Some h))).
Proof.
  split.
  - intros amount payout_type wallet w. rewrite initiate_payout_run. cbn [fst snd log].
    split; [reflexivity|]. now rewrite <- app_assoc.
  - intros data w. rewrite process_run_stub.
    destruct (all (required data)); [destruct (choices w 0)|]; eexists;
      (split; [reflexivity|]); (split; [discriminate|]); cbn.
    + intros _. split; [reflexivity|]. eexists. reflexivity.
    + discriminate.
    + discriminate.
Qed.

Lemma payout_stub_always_succeeds_witness :
  exists reply,
    fst (process_payment_logic visa_request (world true None)) = Ok reply /\
    response_code reply = "00" /\ exists h, blockchain_hash reply = Some (Some h).
Proof.
  destruct (proj2 payout_stub_always_succeeds visa_request (world true None))
    as (reply & Hrun & _ & Happroved).
  exists reply. split; [exact Hrun|]. apply Happroved.
  rewrite process_run_stub in Hrun.
  change (all (required visa_request)) with true in Hrun.
  cbn in Hrun. injection Hrun as <-. reflexivity.
Defined.

(** C8 (ledger-failure frame).  The reply does not depend on the
    Firestore handle: with any two handles (absent, working, failing) the
    function returns normally with the same status, response code,
    message and hash.  With a handle whose add raises, nothing is stored
    and the failure is the last line of the log. *)
Theorem ledger_failure_frame data w d1 d2 :
  fst (process_payment_logic data (with_db w d1))
    = fst (process_payment_logic data (with_db w d2)) /\
  (exists reply, fst (process_payment_logic data (with_db w d1)) = Ok reply) /\
  (forall fs,
     d1 = Some fs ->
     (forall doc, add_raises fs (user_id_of data) doc <> None) ->
     all (required data) = true ->
     truthy (user_id_of data) = true ->
     db (snd (process_payment_logic data (with_db w d1))) = Some fs /\
     exists records e,
       log (snd (process_payment_logic data (with_db w d1)))
         = records ++ [LogFirestoreError e]).
Proof.
  rewrite !process_run_stub. cbn [with_db choices].
  split; [|split].
  - destruct (all (required data)); [destruct (choices w 0)|]; reflexivity.
  - destruct (all (required data)); [destruct (choices w 0)|]; eexists; reflexivity.
  - intros fs -> Hfail Hall Huid. rewrite Hall.
    destruct (choices w 0); cbn [snd]; unfold after_ledger;
      rewrite ?initiate_payout_run; cbn [snd db random_choice with_db]; rewrite Huid.
    + match goal with |- context [add_raises fs ?u ?d] =>
        destruct (add_raises fs u d) as [e|] eqn:E; [|exfalso; now apply (Hfail d)] end.
      split; [reflexivity|]. eexists. exists e. reflexivity.
    + match goal with |- context [add_raises fs ?u ?d] =>
        destruct (add_raises fs u d) as [e|] eqn:E; [|exfalso; now apply (Hfail d)] end.
      split; [reflexivity|]. eexists. exists e. reflexivity.
Qed.

Lemma ledger_failure_frame_witness :
  fst (process_payment_logic visa_request (world true (Some broken_ledger)))
    = fst (process_payment_logic visa_request (world true (Some open_ledger))) /\
  db (snd (process_payment_logic visa_request (world true (Some broken_ledger))))
    = Some broken_ledger.
Proof.
  pose proof (ledger_failure_frame visa_request (world true None)
                (Some broken_ledger) (Some open_ledger)) as (Hsame & _ & Hlogged).
  split; [exact Hsame|].
  apply (Hlogged broken_ledger eq_refl); [discriminate|reflexivity|reflexivity].
Defined.

(** C5, as stated, fails: the same request in two worlds that differ in
    the state of the random module only is approved in one and declined
    in the other. *)
Lemma decision_determinism_counterexample :
  ~ (forall data w c1 c2,
       fst (process_payment_logic data (with_choices w c1))
         = fst (process_payment_logic data (with_choices w c2))) /\
  (exists h, fst (process_payment_logic visa_request (world true None))
               = Ok (reply_00 (Some h))) /\
  fst (process_payment_logic visa_request (world false None)) = Ok reply_51.
Proof.
  split; [|split].
  - intros H.
    specialize (H visa_request (world true None) (fun _ => true) (fun _ => false)).
    rewrite !process_run_stub in H.
    change (all (required visa_request)) with true in H.
    cbn in H. discriminate H.
  - eexists. rewrite process_run_stub. reflexivity.
  - rewrite process_run_stub. reflexivity.
Qed.

(** C5 (decision determinism, amended).  The outcome is a function of
    the request, of what the next [random.choice] returns and of the next
    32 bytes of [os.urandom]: runs on one request in worlds that agree on
    these return the same reply, whatever else differs; and for a request
    that passes the presence check the draw alone decides between
    approved and declined. *)
Theorem decision_by_draw data w1 w2 :
  choices w1 0 = choices w2 0 ->
  (forall i, i < 32 -> entropy w1 i = entropy w2 i) ->
  fst (process_payment_logic data w1) = fst (process_payment_logic data w2) /\
  (all (required data) = true ->
   exists reply,
     fst (process_payment_logic data w1) = Ok reply /\
     status reply = (if choices w1 0 then "approved" else "declined") /\
     response_code reply = (if choices w1 0 then "00" else "51")).
Proof.
  intros Hdraw Hentropy.
  assert (Hhash : next_hash w1 = next_hash w2).
  { unfold next_hash. f_equal. f_equal. apply map_ext_in.
    intros i Hi. apply in_seq in Hi. apply Hentropy. lia. }
  rewrite !process_run_stub, <- Hdraw, Hhash. split.
  - destruct (all (required data)); [destruct (choices w1 0)|]; reflexivity.
  - intros ->. destruct (choices w1 0); eexists; repeat split.
Qed.

Lemma decision_by_draw_witness :
  fst (process_payment_logic visa_request (world true (Some open_ledger)))
    = fst (process_payment_logic visa_request
             (with_choices (world true None) (fun i => Nat.eqb i 0))).
Proof.
  apply (decision_by_draw visa_request (world true (Some open_ledger))
           (with_choices (world true None) (fun i => Nat.eqb i 0)));
    [reflexivity|intros i _; reflexivity].
Defined.

(** C6, as stated, fails: the reply to a request without amount and
    currency and the reply to a request without currency only are the
    same reply, so no field can be read off it. *)
Lemma validation_ordering_counterexample :
  ~ (exists name_of : Reply -> string,
       forall data w reply field,
         first_offending data = Some field ->
         fst (process_payment_logic data w) = Ok reply ->
         name_of reply = field) /\
  first_offending no_amount_no_currency = Some "amount" /\
  first_offending no_currency = Some "currency" /\
  fst (process_payment_logic no_amount_no_currency (world true None)) = Ok reply_99 /\
  fst (process_payment_logic no_currency (world true None)) = Ok reply_99.
Proof.
  assert (H1 : first_offending no_amount_no_currency = Some "amount") by reflexivity.
  assert (H2 : first_offending no_currency = Some "currency") by reflexivity.
  assert (R1 : fst (process_payment_logic no_amount_no_currency (world true None))
               = Ok reply_99) by (rewrite process_run_stub; reflexivity).
  assert (R2 : fst (process_payment_logic no_currency (world true None))
               = Ok reply_99) by (rewrite process_run_stub; reflexivity).
  split; [|repeat split; assumption].
  intros [name_of H].
  pose proof (H _ _ _ _ H1 R1) as A.
  pose proof (H _ _ _ _ H2 R2) as B.
  rewrite A in B. discriminate B.
Qed.

(** C6 (validation, amended).  A request in which one of amount,
    currency, cardNumber, protocol is missing or false gets the one
    reply declined / "99" / "Missing transaction data.", whichever field
    it is, and nothing else happens: no draw, no payout, no ledger write,
    no log line. *)
Theorem missing_field_reply data w field :
  first_offending data = Some field ->
  process_payment_logic data w = (Ok reply_99, w).
Proof.
  intros H. rewrite process_run_stub.
  destruct (all (required data)) eqn:Hall; [|reflexivity].
  apply first_offending_all in Hall. congruence.
Qed.

Lemma missing_field_reply_witness :
  process_payment_logic no_amount_no_currency (world true (Some open_ledger))
    = (Ok reply_99, world true (Some open_ledger)).
Proof.
  apply (missing_field_reply no_amount_no_currency (world true (Some open_ledger)) "amount").
  reflexivity.
Defined.

(** C2, as stated, fails: the document written for a request holds the
    card number of the request as it came. *)
Lemma masking_counterexample :
  ~ (forall data w doc,
       In doc (persisted (snd (process_payment_logic data w))) ->
       ~ In doc (persisted w) ->
       doc_cardNumber doc <> dict_get data "cardNumber") /\
  map doc_cardNumber
      (persisted (snd (process_payment_logic card_request (world true (Some open_ledger)))))
    = [PyStr "4111111111111111"].
Proof.
  assert (Hrun : persisted (snd (process_payment_logic card_request
                                   (world true (Some open_ledger))))
                 = [doc_of card_request (reply_00 (Some (next_hash (world true None))))]).
  { rewrite process_run_stub. reflexivity. }
  split.
  - intros H.
    apply (H card_request (world true (Some open_ledger))
             (doc_of card_request (reply_00 (Some (next_hash (world true None)))))).
    + rewrite Hrun. left. reflexivity.
    + intros [].
    + reflexivity.
  - rewrite Hrun. reflexivity.
Qed.

(** C2 (what is persisted and logged, amended).  For a request that
    passes the presence check, with Firestore set up, a user id that is
    not false and an add that goes through, one document is appended under
    the user id; its cardNumber is the cardNumber of the request,
    unchanged.  On every run, whatever the ledger does, each line added to
    the log is the payout line with the amount, the payout line with the
    hash, the ledger warning, the ledger line with the user id, or the
    ledger error line with the exception that Firestore raised on the add:
    the program itself puts no other value of the request into the log. *)
Theorem persisted_card_number data w :
  (forall fs,
     all (required data) = true ->
     db w = Some fs ->
     truthy (user_id_of data) = true ->
     (forall doc, add_raises fs (user_id_of data) doc = None) ->
     exists doc,
       db (snd (process_payment_logic data w))
         = Some {| transactions := transactions fs ++ [(app_id w, user_id_of data, doc)];
                   add_raises := add_raises fs |} /\
       doc_cardNumber doc = dict_get data "cardNumber") /\
  (exists records,
     log (snd (process_payment_logic data w)) = log w ++ records /\
     forall r, In r records -> run_log_line data w r).
Proof.
  split.
  - intros fs Hall Hdb Huid Hadd. rewrite process_run_stub, Hall.
    destruct (choices w 0); cbn [snd]; rewrite ?initiate_payout_run; cbn [snd];
      unfold after_ledger; cbn [db random_choice snd]; rewrite Hdb, Huid, Hadd;
      eexists; split; reflexivity.
  - rewrite process_run_stub.
    destruct (all (required data)).
    + destruct (choices w 0); cbn [snd].
      * destruct (after_ledger_log (user_id_of data)
                    (doc_of data (reply_00 (Some (next_hash w))))
                    (snd (initiate_payout (dict_get data "amount") "USDT_TRC20"
                            merchant_wallet (snd (random_choice w))))) as (r & Hr & Hline).
        rewrite Hr, initiate_payout_run. cbn [snd log random_choice].
        eexists. rewrite <- !app_assoc. split; [reflexivity|].
        intros r' Hin. simpl in Hin. destruct Hin as [<-|[<-|[<-|[]]]].
        -- now left.
        -- right. now left.
        -- right. right. exists (reply_00 (Some (next_hash w))). exact Hline.
      * destruct (after_ledger_log (user_id_of data) (doc_of data reply_51)
                    (snd (random_choice w))) as (r & Hr & Hline).
        rewrite Hr. cbn [snd log random_choice].
        eexists. split; [reflexivity|].
        intros r' [<-|[]]. right. right. exists reply_51. exact Hline.
    + exists []. cbn [snd]. rewrite app_nil_r. split; [reflexivity|]. intros r [].
Qed.

Lemma persisted_card_number_witness :
  exists doc,
    db (snd (process_payment_logic card_request (world false (Some open_ledger))))
      = Some {| transactions := [("default-app-id", PyStr "virtual-terminal-1", doc)];
                add_raises := add_raises open_ledger |} /\
    doc_cardNumber doc = PyStr "4111111111111111".
Proof.
  destruct (proj1 (persisted_card_number card_request (world false (Some open_ledger)))
              open_ledger) as (doc & Hdb & Hcard); try reflexivity.
  exists doc. split; [exact Hdb|exact Hcard].
Defined.

End PipelineClaims.

(** ** The constructor *)

(** [Iso8583Message(text)] unpacks a non-empty text and leaves the object
    as [decode] does; the empty text is not unpacked at all, and the type
    stays None. *)
Lemma init_unpacks s :
  s <> EmptyString -> init (Some s) fresh = decode s.
Proof.
  intros Hs. unfold init, decode, bind, modify. cbn [fresh self logged].
  apply String.eqb_neq in Hs. now rewrite Hs.
Qed.

Lemma init_empty_text :
  self (snd (init (Some EmptyString) fresh)) = {| mti := None; data_elements := [] |} /\
  decoded EmptyString = {| mti := Some "ERROR"; data_elements := [] |}.
Proof. split; reflexivity. Qed.

(** ** The concrete scenarios of the specification *)

Example scenario1 :
  decoded "MTI:0200|39:00,02:4111111111111111" =
  {| mti := Some "0200";
     data_elements := [("39", "00"); ("02", "4111111111111111")] |}.
Proof. reflexivity. Qed.

Example scenario2 :
  fst (process_payment_logic visa_request (world true None))
  = Ok (reply_00 (Some (next_hash (world true None)))).
Proof. rewrite process_run_stub. reflexivity. Qed.

Example scenario3 :
  fst (process_payment_logic_with failing_payout visa_request (world true None))
  = Ok reply_05.
Proof. rewrite process_run. reflexivity. Qed.

Example scenario4 :
  process_payment_logic (delete "cardNumber" visa_request) (world true (Some open_ledger))
  = (Ok reply_99, world true (Some open_ledger)).
Proof. rewrite process_run_stub. reflexivity. Qed.

(** * More of the code *)

(** ** The codec on any object *)

Section CodecMore.

Lemma join_split c s : join (String c EmptyString) (split c s) = s.
Proof.
  induction s as [|a r IH]; [reflexivity|].
  simpl. destruct (Ascii.eqb a c) eqn:E.
  - apply Ascii.eqb_eq in E. subst a.
    pose proof (split_not_nil c r) as Hne.
    destruct (split c r) as [|p ps] eqn:Hs; [congruence|].
    change (join (String c EmptyString) (EmptyString :: p :: ps))
      with (String c (join (String c EmptyString) (p :: ps))).
    now rewrite IH.
  - destruct (split c r) as [|p ps] eqn:Hs.
    + exfalso. now apply (split_not_nil c r).
    + destruct ps as [|q qs].
      * simpl in *. now rewrite IH.
      * change (join (String c EmptyString) (String a p :: q :: qs))
          with (String a (join (String c EmptyString) (p :: q :: qs))).
        now rewrite IH.
Qed.

Lemma keys_setitem {V} k (v : V) d :
  keys (dict_setitem k v d) = if existsb (String.eqb k) (keys d) then keys d else keys d ++ [k].
Proof.
  induction d as [|[k' v'] rest IH]; [reflexivity|].
  simpl. rewrite (String.eqb_sym k k').
  destruct (String.eqb k' k); simpl; [reflexivity|].
  unfold keys in *. rewrite IH.
  destruct (existsb (String.eqb k) (map fst rest)); reflexivity.
Qed.

Lemma NoDup_keys_setitem {V} k (v : V) d :
  List.NoDup (keys d) -> List.NoDup (keys (dict_setitem k v d)).
Proof.
  intros Hnd. rewrite keys_setitem.
  destruct (existsb (String.eqb k) (keys d)) eqn:E; [exact Hnd|].
  apply List.NoDup_app; [exact Hnd|repeat constructor; simpl; tauto|].
  intros x Hx [Heq|[]]. subst x.
  assert (existsb (String.eqb k) (keys d) = true)
    by (apply existsb_exists; exists k; split; [exact Hx|apply String.eqb_refl]).
  congruence.
Qed.

Lemma dict_getitem_setitem {V} k k' (v : V) d :
  dict_getitem k (dict_setitem k' v d) =
  if String.eqb k' k then Some v else dict_getitem k d.
Proof.
  induction d as [|[k0 v0] rest IH]; simpl.
  - reflexivity.
  - destruct (String.eqb k0 k') eqn:E0; simpl.
    + apply String.eqb_eq in E0. subst k0.
      destruct (String.eqb k' k); reflexivity.
    + rewrite IH. destruct (String.eqb k0 k) eqn:E1; [|reflexivity].
      apply String.eqb_eq in E1. subst k0. now rewrite (String.eqb_sym k' k), E0.
Qed.

(** [unpack] on an object in any state. *)
Lemma unpack_cases s st :
  unpack s st =
  (Ok tt,
   if framed s then
     match first_bad (elements s) with
     | None =>
         {| self := {| mti := Some (type_text s);
                       data_elements :=
                         store_all (leading_pairs (elements s)) (data_elements (self st)) |};
            logged := logged st |}
     | Some e =>
         {| self := {| mti := Some "ERROR";
                       data_elements :=
                         store_all (leading_pairs (elements s)) (data_elements (self st)) |};
            logged := logged st ++ [LogUnpackFailed (pair_error e)] |}
     end
   else {| self := {| mti := Some "ERROR"; data_elements := data_elements (self st) |};
           logged := logged st ++ [LogUnpackFailed IndexError] |}).
Proof.
  unfold framed, unpack, try_except, unpack_body.
  unfold bind at 1. unfold lift_res at 1. rewrite index_segment1.
  unfold bind at 1. unfold lift_res at 1. rewrite index_type_text.
  destruct (Nat.ltb 0 (count ":" (segment1 s))); [|reflexivity].
  unfold bind at 1. unfold set_mti at 1, modify at 1.
  unfold bind at 1. unfold lift_res at 1. rewrite index_segment2.
  destruct (Nat.ltb 0 (count "|" s)); [|reflexivity].
  rewrite for_in_elements. fold (elements s).
  destruct (first_bad (elements s)); reflexivity.
Qed.

Lemma store_all_keys kvs d :
  List.NoDup (keys d) ->
  List.NoDup (keys (store_all kvs d)) /\
  exists added, keys (store_all kvs d) = keys d ++ added.
Proof.
  revert d. induction kvs as [|[k v] rest IH]; intros d Hnd.
  - split; [exact Hnd|]. exists []. now rewrite app_nil_r.
  - unfold store_all in *. simpl.
    destruct (IH (dict_setitem k v d) (NoDup_keys_setitem k v d Hnd)) as [H1 [added H2]].
    split; [exact H1|].
    rewrite H2, keys_setitem.
    destruct (existsb (String.eqb k) (keys d)).
    + now exists added.
    + exists (k :: added). now rewrite <- app_assoc.
Qed.

(** X1.  [unpack] keeps the object a dict and never drops a field: on
    any text, an object whose codes are distinct has distinct codes
    afterwards, and the codes it had come first, in their order; so
    fields of an earlier [unpack] on the same object stay. *)
Theorem unpack_keeps_fields s st :
  List.NoDup (keys (data_elements (self st))) ->
  List.NoDup (keys (data_elements (self (snd (unpack s st))))) /\
  exists added,
    keys (data_elements (self (snd (unpack s st))))
    = keys (data_elements (self st)) ++ added.
Proof.
  intros Hnd. rewrite unpack_cases. cbn [snd].
  destruct (framed s).
  - destruct (first_bad (elements s)); cbn [self data_elements];
      now apply store_all_keys.
  - cbn [self data_elements]. split; [exact Hnd|]. exists []. now rewrite app_nil_r.
Qed.

Lemma unpack_keeps_fields_witness :
  exists added,
    keys (data_elements (self (snd (unpack "MTI:0210|39:00,04:100"
                                      (snd (decode "MTI:0200|02:4111,39:05"))))))
    = ["02"; "39"] ++ added.
Proof.
  apply (unpack_keeps_fields "MTI:0210|39:00,04:100" (snd (decode "MTI:0200|02:4111,39:05"))).
  repeat constructor; simpl; intuition discriminate.
Defined.

Lemma last_value_cons k k' v' rest :
  last_value k ((k', v') :: rest) =
  match last_value k rest with
  | Some v => Some v
  | None => if String.eqb k' k then Some v' else None
  end.
Proof.
  unfold last_value. simpl.
  set (step := fun (found : option string) (kv : string * string) =>
                 if String.eqb (fst kv) k then Some (snd kv) else found).
  assert (G : forall found,
            fold_left step rest found
            = match fold_left step rest None with
              | Some v => Some v
              | None => found
              end).
  { induction rest as [|[k0 v0] rest IH]; intros found; simpl; [reflexivity|].
    unfold step at 2 4. simpl. destruct (String.eqb k0 k).
    - rewrite (IH (Some v0)). now destruct (fold_left step rest None).
    - apply IH. }
  apply G.
Qed.

Lemma dict_getitem_store_all k kvs d :
  dict_getitem k (store_all kvs d) =
  match last_value k kvs with
  | Some v => Some v
  | None => dict_getitem k d
  end.
Proof.
  revert d. induction kvs as [|[k' v'] rest IH]; intros d; [reflexivity|].
  rewrite last_value_cons.
  change (store_all ((k', v') :: rest) d) with (store_all rest (dict_setitem k' v' d)).
  rewrite IH, dict_getitem_setitem.
  destruct (last_value k rest); [reflexivity|].
  now destruct (String.eqb k' k).
Qed.

Lemma leading_pairs_all els :
  forallb pair_ok els = true -> leading_pairs els = map cut_pair els.
Proof.
  induction els as [|e rest IH]; simpl; [reflexivity|].
  destruct (pair_ok e); simpl; [|discriminate].
  intros H. now rewrite IH.
Qed.

(** X2.  When a text decodes, looking a code up in the decoded fields
    gives the value of the last element of the text with that code: a
    repeated code is overwritten, not rejected. *)
Theorem decoded_last_value_wins s k :
  framed s = true ->
  forallb pair_ok (elements s) = true ->
  dict_getitem k (data_elements (decoded s))
  = last_value k (map cut_pair (elements s)).
Proof.
  intros Hf Hok. rewrite decoded_fields, Hf, dict_getitem_store_all.
  rewrite leading_pairs_all by assumption.
  now destruct (last_value k (map cut_pair (elements s))).
Qed.

Lemma decoded_last_value_wins_witness :
  dict_getitem "39" (data_elements (decoded "MTI:0200|39:00,02:4111,39:05")) = Some "05".
Proof.
  apply (decoded_last_value_wins "MTI:0200|39:00,02:4111,39:05" "39"); reflexivity.
Defined.

Lemma render_cut_pair e : pair_ok e = true -> render (cut_pair e) = e.
Proof.
  unfold pair_ok, render, cut_pair. cbn [fst snd]. intros H.
  apply Nat.eqb_eq in H. symmetry.
  change (":" +:+ after ":" e) with (String ":" (after ":" e)).
  apply cut_at_first. lia.
Qed.

Lemma map_render_cut_pair els :
  forallb pair_ok els = true -> map render (map cut_pair els) = els.
Proof.
  induction els as [|e rest IH]; simpl; [reflexivity|].
  intros H. apply andb_prop in H as [He Hrest].
  now rewrite render_cut_pair, IH.
Qed.

(** X3.  The round trip in the other direction: a canonical text (tag
    "MTI", one colon in the first segment, one "|", pairs with distinct
    codes, ASCII) decodes without error, and packing the decoded type and
    fields gives the bytes of the same text. *)
Theorem pack_of_unpacked s :
  canonical s ->
  mti (decoded s) = Some (type_text s) /\
  encode (type_text s) (data_elements (decoded s)) = Ok (bytes_of s).
Proof.
  intros (Htag & Hcol & Hbar & Hok & Hnd & Hascii).
  assert (Hframed : framed s = true) by (unfold framed; now rewrite Hcol, Hbar).
  split; [now rewrite decoded_mti, Hframed, Hok|].
  rewrite decoded_fields, Hframed, leading_pairs_all by assumption.
  rewrite (store_all_new (map cut_pair (elements s)) []).
  2:{ simpl. unfold keys. rewrite map_map. exact Hnd. }
  cbn [app]. rewrite encode_packed_text.
  assert (Htext : packed_text (type_text s) (map cut_pair (elements s)) = s).
  { unfold packed_text. rewrite map_render_cut_pair by assumption.
    unfold elements. rewrite join_split.
    assert (Hseg2 : segment2 s = after "|" s).
    { unfold segment2. apply before_whole. now rewrite count_after, Hbar. }
    assert (Htype : type_text s = after ":" (segment1 s)).
    { unfold type_text. apply before_whole. now rewrite count_after, Hcol. }
    rewrite Hseg2, Htype.
    change ("MTI:" +:+ after ":" (segment1 s) +:+ "|" +:+ after "|" s)
      with ("MTI" +:+ String ":" (after ":" (segment1 s) +:+ String "|" (after "|" s))).
    rewrite <- Htag.
    change (String ":" (after ":" (segment1 s) +:+ String "|" (after "|" s)))
      with (String ":" (after ":" (segment1 s)) +:+ String "|" (after "|" s)).
    rewrite <- append_assoc.
    rewrite <- (cut_at_first ":" (segment1 s)) by lia.
    unfold segment1. symmetry. apply cut_at_first. lia. }
  rewrite Htext. unfold encode_ascii, bytes_of.
  now apply encode_ascii_from_ok.
Qed.

Lemma pack_of_unpacked_witness :
  encode "0200" (data_elements (decoded "MTI:0200|39:00,02:4111111111111111"))
  = Ok (bytes_of "MTI:0200|39:00,02:4111111111111111").
Proof.
  apply (pack_of_unpacked "MTI:0200|39:00,02:4111111111111111").
  unfold canonical. simpl.
  repeat split; try reflexivity.
  repeat constructor; simpl; intuition discriminate.
Defined.

Lemma encode_ascii_from_first pos s :
  encode_ascii_from pos s =
  match first_non_ascii s with
  | None => Ok (bytes_of s)
  | Some i => Raise (UnicodeEncodeError (pos + i))
  end.
Proof.
  revert pos. induction s as [|c rest IH]; intros pos; simpl; [reflexivity|].
  destruct (is_ascii c).
  - rewrite (IH (S pos)). destruct (first_non_ascii rest) as [i|].
    + do 2 f_equal. lia.
    + reflexivity.
  - do 2 f_equal. lia.
Qed.

Lemma first_non_ascii_none s : first_non_ascii s = None <-> all_ascii s = true.
Proof.
  induction s as [|c rest IH]; simpl; [tauto|].
  destruct (is_ascii c); simpl.
  - destruct (first_non_ascii rest); [|tauto].
    split; [discriminate|]. intros H. apply IH in H. discriminate.
  - split; discriminate.
Qed.

Lemma all_ascii_join_iff pieces :
  all_ascii (join "," pieces) = true <-> Forall (fun p => all_ascii p = true) pieces.
Proof.
  split; [|now apply all_ascii_join].
  induction pieces as [|p rest IH]; [constructor|].
  destruct rest as [|q rest'].
  - simpl. intros H. now repeat constructor.
  - change (join "," (p :: q :: rest')) with (p +:+ "," +:+ join "," (q :: rest')).
    rewrite !all_ascii_app. intros H.
    apply andb_prop in H as [Hp H]. apply andb_prop in H as [_ H].
    constructor; [exact Hp|now apply IH].
Qed.

(** X4.  [pack] is partial: it returns bytes exactly when the type and
    every code and value are ASCII, and raises UnicodeEncodeError at the
    position of the first other character of the text otherwise; in both
    cases the object has taken the type and the fields, and nothing is
    logged. *)
Theorem pack_outcome m flds st :
  snd (pack m flds st)
    = {| self := {| mti := Some m; data_elements := flds |}; logged := logged st |} /\
  fst (pack m flds st)
    = match first_non_ascii (packed_text m flds) with
      | None => Ok (bytes_of (packed_text m flds))
      | Some i => Raise (UnicodeEncodeError i)
      end /\
  (first_non_ascii (packed_text m flds) = None <->
   all_ascii m = true /\
   Forall (fun kv => all_ascii (fst kv) = true /\ all_ascii (snd kv) = true) flds).
Proof.
  split; [reflexivity|split].
  - change (fst (pack m flds st)) with (encode_ascii (packed_text m flds)).
    unfold encode_ascii. rewrite encode_ascii_from_first.
    now destruct (first_non_ascii (packed_text m flds)).
  - rewrite first_non_ascii_none.
    assert (Hr : forall kv, all_ascii (render kv) = true <->
                            all_ascii (fst kv) = true /\ all_ascii (snd kv) = true).
    { intros kv. unfold render. rewrite !all_ascii_app.
      change (all_ascii ":") with true. rewrite andb_true_l.
      apply andb_true_iff. }
    assert (Hp : all_ascii (packed_text m flds)
                 = all_ascii m && all_ascii (join "," (map render flds))).
    { unfold packed_text. rewrite !all_ascii_app.
      change (all_ascii "MTI:") with true. change (all_ascii "|") with true.
      now rewrite !andb_true_l. }
    rewrite Hp, andb_true_iff. split.
    + intros [Hm Hall]. split; [exact Hm|].
      apply all_ascii_join_iff, List.Forall_map in Hall.
      eapply List.Forall_impl; [|exact Hall]. intros kv. apply Hr.
    + intros [Hm Hall]. split; [exact Hm|].
      apply all_ascii_join_iff, List.Forall_map.
      eapply List.Forall_impl; [|exact Hall]. intros kv. apply Hr.
Qed.

(** X5.  Every failed [unpack] is logged once and a successful one not
    at all: the log grows by one error record, with an IndexError or a
    ValueError about the number of values, exactly when a delimiter is
    missing or an element is no pair, and then the type is "ERROR";
    otherwise the log is unchanged and the type is the one of the text. *)
Theorem unpack_logs_failures s st :
  exists e,
    unpack_error e /\
    logged (snd (unpack s st))
      = logged st ++ (if framed s && forallb pair_ok (elements s)
                      then [] else [LogUnpackFailed e]) /\
    mti (self (snd (unpack s st)))
      = Some (if framed s && forallb pair_ok (elements s) then type_text s else "ERROR").
Proof.
  rewrite unpack_cases. cbn [snd].
  destruct (framed s); cbn [andb].
  - destruct (first_bad (elements s)) as [bad|] eqn:E.
    + assert (F : forallb pair_ok (elements s) = false).
      { destruct (forallb pair_ok (elements s)) eqn:F; [|reflexivity].
        apply first_bad_none in F. congruence. }
      rewrite F. exists (pair_error bad). repeat split.
      unfold unpack_error, pair_error. destruct (Nat.eqb (count ":" bad) 0); tauto.
    + apply first_bad_none in E. rewrite E.
      exists IndexError. cbn [logged self mti]. rewrite app_nil_r.
      repeat split. now left.
  - exists IndexError. repeat split. now left.
Qed.

(** X21.  The constructor starts from nothing: [Iso8583Message(text)]
    on a non-empty text leaves the object that [decode] gives for the
    text, whatever the object held before, and adds the log lines of that
    decoding; without a text, or with the empty text, nothing is unpacked
    and the type stays None. *)
Theorem init_outcome text st :
  (forall s, text = Some s -> s <> EmptyString ->
     self (snd (init text st)) = decoded s /\
     logged (snd (init text st)) = logged st ++ logged (snd (decode s))) /\
  (text = None \/ text = Some EmptyString ->
     self (snd (init text st)) = {| mti := None; data_elements := [] |} /\
     logged (snd (init text st)) = logged st).
Proof.
  split.
  - intros s -> Hs. apply String.eqb_neq in Hs.
    unfold init, bind, modify, decoded, decode. rewrite Hs.
    rewrite !unpack_cases. cbn [snd self logged data_elements fresh].
    destruct (framed s); [destruct (first_bad (elements s))|]; split; try reflexivity.
    now rewrite app_nil_r.
  - intros [->| ->]; split; reflexivity.
Qed.

Lemma init_outcome_witness :
  self (snd (init (Some "MTI:0210|39:00") (snd (decode "MTI:0200|02:4111"))))
  = decoded "MTI:0210|39:00".
Proof.
  apply (proj1 (init_outcome (Some "MTI:0210|39:00") (snd (decode "MTI:0200|02:4111")))
           "MTI:0210|39:00" eq_refl).
  discriminate.
Defined.

End CodecMore.

(** ** The pipeline: replies, ledger, resources *)

Section PipelineMore.

(** X6.  Whatever function settles, a reply of [process_payment_logic]
    has one of the codes "00", "05", "51", "99"; approved goes with "00"
    or "05" and declined with "51" or "99"; the code is "99" exactly when
    a required field is missing or false, and then the reply has no
    blockchain_hash key; a hash that is not null comes with "00" only. *)
Theorem reply_shape payout data w reply w' :
  process_payment_logic_with payout data w = (Ok reply, w') ->
  (status reply = "approved" /\
     (response_code reply = "00" \/ response_code reply = "05") \/
   status reply = "declined" /\
     (response_code reply = "51" \/ response_code reply = "99")) /\
  (response_code reply = "99" <-> first_offending data <> None) /\
  (blockchain_hash reply = None <-> response_code reply = "99") /\
  (forall h, blockchain_hash reply = Some (Some h) -> response_code reply = "00").
Proof.
  rewrite process_run. intros Hrun.
  destruct (all (required data)) eqn:Hall.
  - assert (Hnone : first_offending data = None) by now apply first_offending_all.
    rewrite Hnone.
    assert (Hno : None <> @None string -> False) by (intros H; now apply H).
    destruct (choices w 0).
    + destruct (payout _ _ _ _) as [[pr|e] w1]; [|discriminate].
      cbn zeta in Hrun. injection Hrun as <- _.
      destruct (String.eqb (payout_status pr) "success");
        cbn [status response_code blockchain_hash reply_00 reply_05];
        (split; [tauto|]); (split; [split; [discriminate|tauto]|]);
        (split; [split; discriminate|]); intros h; [reflexivity|discriminate].
    + injection Hrun as <- _.
      cbn [status response_code blockchain_hash reply_51].
      split; [tauto|]. split; [split; [discriminate|tauto]|].
      split; [split; discriminate|]. discriminate.
  - assert (Hsome : first_offending data <> None).
    { intros Hnone. apply first_offending_all in Hnone. congruence. }
    injection Hrun as <- _.
    cbn [status response_code blockchain_hash reply_99].
    split; [tauto|]. split; [tauto|]. split; [tauto|]. discriminate.
Qed.

Lemma reply_shape_witness :
  status reply_05 = "approved" /\
    (response_code reply_05 = "00" \/ response_code reply_05 = "05") \/
  status reply_05 = "declined" /\
    (response_code reply_05 = "51" \/ response_code reply_05 = "99").
Proof.
  apply (reply_shape failing_payout visa_request (world true None) reply_05
           (after_ledger (user_id_of visa_request) (doc_of visa_request reply_05)
                         (snd (random_choice (world true None))))).
  rewrite process_run. reflexivity.
Defined.

Lemma after_ledger_frame user_id doc w :
  app_id (after_ledger user_id doc w) = app_id w /\
  choices (after_ledger user_id doc w) = choices w /\
  entropy (after_ledger user_id doc w) = entropy w /\
  slept (after_ledger user_id doc w) = slept w.
Proof.
  unfold after_ledger.
  destruct (db w) as [fs|]; [|repeat split].
  destruct (truthy user_id); [|repeat split].
  destruct (add_raises fs user_id doc); repeat split.
Qed.

Lemma after_ledger_persisted user_id doc w :
  persisted (after_ledger user_id doc w) = persisted w \/
  persisted (after_ledger user_id doc w) = persisted w ++ [doc].
Proof.
  unfold after_ledger, persisted.
  destruct (db w) as [fs|] eqn:Hdb; cbn [db add_log]; rewrite ?Hdb; [|now left].
  destruct (truthy user_id); cbn [db add_log]; rewrite ?Hdb; [|now left].
  destruct (add_raises fs user_id doc); cbn [db add_log with_db transactions];
    rewrite ?Hdb; [now left|].
  right. rewrite map_app. reflexivity.
Qed.

(** X7.  The ledger is append-only and gets one document per request at
    most: after [process_payment_logic] Firestore holds the documents it
    held, in their order, and behind them nothing or one document; that
    document carries the status, the code and the hash of the reply that
    is returned, and a "99" reply is never recorded. *)
Theorem ledger_append_only data w :
  exists reply written,
    fst (process_payment_logic data w) = Ok reply /\
    persisted (snd (process_payment_logic data w)) = persisted w ++ written /\
    (written = [] \/
     exists doc,
       written = [doc] /\
       response_code reply <> "99" /\
       doc_status doc = status reply /\
       doc_response_code doc = response_code reply /\
       blockchain_hash reply = Some (doc_blockchain_hash doc)).
Proof.
  rewrite process_run_stub.
  destruct (all (required data)).
  - destruct (choices w 0).
    + exists (reply_00 (Some (next_hash w))).
      destruct (after_ledger_persisted (user_id_of data)
                  (doc_of data (reply_00 (Some (next_hash w))))
                  (snd (initiate_payout (dict_get data "amount") "USDT_TRC20"
                          merchant_wallet (snd (random_choice w))))) as [H|H].
      * exists []. split; [reflexivity|]. split; [|now left].
        cbn [snd]. rewrite H, app_nil_r. reflexivity.
      * eexists. split; [reflexivity|]. split; [cbn [snd]; rewrite H; reflexivity|].
        right. eexists. split; [reflexivity|]. repeat split. discriminate.
    + exists reply_51.
      destruct (after_ledger_persisted (user_id_of data) (doc_of data reply_51)
                  (snd (random_choice w))) as [H|H].
      * exists []. split; [reflexivity|]. split; [|now left].
        cbn [snd]. rewrite H, app_nil_r. reflexivity.
      * eexists. split; [reflexivity|]. split; [cbn [snd]; rewrite H; reflexivity|].
        right. eexists. split; [reflexivity|]. repeat split. discriminate.
  - exists reply_99, []. split; [reflexivity|]. split; [|now left].
    cbn [snd]. now rewrite app_nil_r.
Qed.

(** X8.  A user id that is false (null, "", 0, ...) switches the ledger
    off: for a request that passes the presence check nothing is written
    even when Firestore works, and the last log line is the warning. *)
Theorem false_user_id_skips_ledger data w :
  all (required data) = true ->
  truthy (user_id_of data) = false ->
  db (snd (process_payment_logic data w)) = db w /\
  exists records,
    log (snd (process_payment_logic data w)) = records ++ [LogFirestoreUnavailable].
Proof.
  intros Hall Huid. rewrite process_run_stub, Hall.
  destruct (choices w 0); cbn [snd]; rewrite ?initiate_payout_run; cbn [snd];
    unfold after_ledger; cbn [db random_choice snd]; rewrite Huid;
    (destruct (db w) as [fs|] eqn:Hdb;
     (split; [cbn [db add_log]; now rewrite ?Hdb|eexists; reflexivity])).
Qed.

Lemma false_user_id_skips_ledger_witness :
  db (snd (process_payment_logic (<["userId" := PyStr ""]> visa_request)
             (world true (Some open_ledger))))
  = Some open_ledger.
Proof.
  apply (false_user_id_skips_ledger (<["userId" := PyStr ""]> visa_request)
           (world true (Some open_ledger))); reflexivity.
Defined.

(** X9.  The settlement function is called on approval only: for a
    request that fails the presence check, or that the draw declines, the
    result and the world after it are the same whatever function is bound
    to [initiate_payout]. *)
Theorem payout_only_on_approval payout1 payout2 data w :
  all (required data) = false \/ choices w 0 = false ->
  process_payment_logic_with payout1 data w = process_payment_logic_with payout2 data w.
Proof.
  intros H. rewrite !process_run.
  destruct (all (required data)); [|reflexivity].
  destruct H as [H|H]; [discriminate|]. now rewrite H.
Qed.

Lemma payout_only_on_approval_witness :
  process_payment_logic_with failing_payout visa_request (world false (Some open_ledger))
  = process_payment_logic_with initiate_payout visa_request (world false (Some open_ledger)).
Proof.
  apply (payout_only_on_approval failing_payout initiate_payout visa_request
           (world false (Some open_ledger))).
  right. reflexivity.
Defined.

(** X10.  What a run of [process_payment_logic] uses up: one draw of
    the random module when the request passes the presence check and none
    otherwise; 32 bytes of entropy and one second of sleep when the
    request is approved and none otherwise; [app_id] stays. *)
Theorem pipeline_resources data w :
  app_id (snd (process_payment_logic data w)) = app_id w /\
  (forall i, choices (snd (process_payment_logic data w)) i
             = choices w ((if all (required data) then 1 else 0) + i)) /\
  (forall i, entropy (snd (process_payment_logic data w)) i
             = entropy w ((if all (required data) && choices w 0 then 32 else 0) + i)) /\
  slept (snd (process_payment_logic data w))
    = slept w + (if all (required data) && choices w 0 then 1 else 0).
Proof.
  rewrite process_run_stub.
  destruct (all (required data)); cbn [andb].
  - destruct (choices w 0); cbn [snd];
      match goal with |- context [after_ledger ?u ?d ?x] =>
        destruct (after_ledger_frame u d x) as (Ha & Hc & He & Hs) end;
      rewrite Ha, Hc, He, Hs; rewrite ?initiate_payout_run; cbn;
      repeat split; lia.
  - cbn. repeat split. lia.
Qed.

(** X11.  The log is append-only, and a run adds no line to it when the
    presence check fails, one line (of the ledger step) when the request
    is declined, and three (two of the payout, one of the ledger step)
    when it is approved. *)
Theorem log_growth data w :
  exists records,
    log (snd (process_payment_logic data w)) = log w ++ records /\
    length records
      = (if all (required data) then if choices w 0 then 3 else 1 else 0).
Proof.
  rewrite process_run_stub.
  destruct (all (required data)).
  - destruct (choices w 0); cbn [snd].
    + destruct (after_ledger_log (user_id_of data)
                  (doc_of data (reply_00 (Some (next_hash w))))
                  (snd (initiate_payout (dict_get data "amount") "USDT_TRC20"
                          merchant_wallet (snd (random_choice w))))) as (r & Hr & _).
      rewrite Hr, initiate_payout_run. cbn [snd log random_choice].
      eexists. rewrite <- !app_assoc. split; reflexivity.
    + destruct (after_ledger_log (user_id_of data) (doc_of data reply_51)
                  (snd (random_choice w))) as (r & Hr & _).
      rewrite Hr. cbn [snd log random_choice]. eexists. split; reflexivity.
  - exists []. cbn [snd]. now rewrite app_nil_r.
Qed.

Lemma length_hex bs : String.length (hex bs) = 2 * length bs.
Proof. induction bs as [|b rest IH]; simpl; [reflexivity|]. rewrite IH. lia. Qed.

Lemma hex_digit_is_hex n : is_hex_digit (hex_digit n) = true.
Proof. do 16 (destruct n as [|n]; [reflexivity|]). reflexivity. Qed.

Lemma all_hex_hex bs : all_hex (hex bs) = true.
Proof.
  induction bs as [|b rest IH]; [reflexivity|].
  cbn [hex all_hex]. now rewrite !hex_digit_is_hex, IH.
Qed.

(** X12.  The hash of a payout is "0x" and 64 lower-case hexadecimal
    digits, on every call. *)
Theorem payout_hash_format amount payout_type wallet w :
  exists digits,
    fst (initiate_payout amount payout_type wallet w)
      = Ok {| payout_status := "success"; payout_hash := Some ("0x" +:+ digits) |} /\
    String.length digits = 64 /\
    all_hex digits = true.
Proof.
  exists (hex (map (entropy w) (seq 0 32))).
  rewrite initiate_payout_run. split; [reflexivity|].
  split; [|apply all_hex_hex].
  rewrite length_hex, length_map, length_seq. reflexivity.
Qed.

(** X22.  An exception of the settlement function is not caught by
    [process_payment_logic]: for an approved request it goes through to
    the caller, no reply is made and the ledger step does not run, so the
    world is the one the settlement function left. *)
Theorem payout_exception_propagates payout data w e w' :
  all (required data) = true ->
  choices w 0 = true ->
  payout (dict_get data "amount") "USDT_TRC20" merchant_wallet (snd (random_choice w))
    = (Raise e, w') ->
  process_payment_logic_with payout data w = (Raise e, w').
Proof.
  intros Hall Hdraw Hpay. now rewrite process_run, Hall, Hdraw, Hpay.
Qed.

Lemma payout_exception_propagates_witness :
  process_payment_logic_with (fun _ _ _ => raise (ExternalError "timeout"))
                             visa_request (world true (Some open_ledger))
  = (Raise (ExternalError "timeout"), snd (random_choice (world true (Some open_ledger)))).
Proof.
  apply (payout_exception_propagates (fun _ _ _ => raise (ExternalError "timeout"))
           visa_request (world true (Some open_ledger)));
    reflexivity.
Defined.

End PipelineMore.

(** ** The web terminal *)

Import Web.

Section WebMore.

Lemma logged_in_flash message_text category app :
  logged_in (flash message_text category app) = logged_in app.
Proof.
  unfold logged_in, flash. cbn [session].
  now rewrite lookup_insert_ne by discriminate.
Qed.

Lemma logged_in_session_login app : logged_in (session_login app) = true.
Proof.
  unfold logged_in, session_login. cbn [session].
  now rewrite lookup_insert_eq.
Qed.

Lemma session_flash message_text category app key :
  key <> "_flashes" ->
  session (flash message_text category app) !! key = session app !! key.
Proof.
  intros Hk. unfold flash. cbn [session]. now rewrite lookup_insert_ne by congruence.
Qed.

(** A protected view function, called for a client that is not logged in. *)
Lemma call_view_refuses route req app :
  protected route = true ->
  logged_in app = false ->
  fst (call_view route req app) = refusal route /\
  logged_in (snd (call_view route req app)) = false /\
  (forall key, key <> "_flashes" ->
     session (snd (call_view route req app)) !! key = session app !! key) /\
  outside (snd (call_view route req app)) = outside app /\
  web_log (snd (call_view route req app)) = web_log app.
Proof.
  intros Hp Hl.
  destruct route; try discriminate Hp; cbn [call_view];
    unfold card_page, processing_page, success_page, rejected_page, handle_web_payment;
    rewrite Hl; cbn [negb fst snd]; rewrite ?logged_in_flash;
    repeat split; try assumption.
  intros key Hk. now apply session_flash.
Qed.

(** X13.  The pages behind the login (card, processing, success,
    rejected) and the payment endpoint turn a client without 'logged_in'
    in its session away: for a method of the rule the view function
    redirects to /login (the endpoint answers 401), and for another
    method Flask answers itself; no template is rendered, the client is
    not logged in afterwards, the session changes at most in the flashed
    messages, and the world of the pipeline and the endpoint's log stay
    as they are. *)
Theorem protected_routes_need_login route req app :
  protected route = true ->
  logged_in app = false ->
  fst (view route req app) = turned_away route req /\
  logged_in (snd (view route req app)) = false /\
  (forall key, key <> "_flashes" ->
     session (snd (view route req app)) !! key = session app !! key) /\
  outside (snd (view route req app)) = outside app /\
  web_log (snd (view route req app)) = web_log app.
Proof.
  intros Hp Hl. unfold view, turned_away.
  destruct (accepts route (method req)).
  - destruct (call_view_refuses route req app Hp Hl) as (H1 & H2 & H3 & H4 & H5).
    cbn [fst snd]. rewrite H1. now repeat split.
  - destruct (String.eqb (method req) "OPTIONS"); now repeat split.
Qed.

Lemma protected_routes_need_login_witness :
  fst (view ProcessTransaction (post_json (PyDict [])) (visitor (world true (Some open_ledger))))
    = Called (Respond (Json (JsonStatusMessage "error" "User not authenticated.") 401)) /\
  fst (view CardPage post_request (visitor (world true (Some open_ledger))))
    = MethodNotAllowed.
Proof.
  split.
  - apply (protected_routes_need_login ProcessTransaction (post_json (PyDict []))
             (visitor (world true (Some open_ledger)))); reflexivity.
  - apply (protected_routes_need_login CardPage post_request
             (visitor (world true (Some open_ledger)))); reflexivity.
Defined.

Lemma process_payment_logic_returns data w :
  exists reply, process_payment_logic data w = (Ok reply, snd (process_payment_logic data w)).
Proof.
  rewrite process_run_stub.
  destruct (all (required data)); [destruct (choices w 0)|]; eexists; reflexivity.
Qed.

(** X14.  For a logged-in client the payment endpoint answers a JSON
    object with status 200 and the reply of [process_payment_logic] on
    it, and leaves the world as the pipeline leaves it; the 500 answer
    (declined, "99", "Internal Server Error") is given only when the body
    is no JSON object, and then the pipeline has not run and the error
    is logged. *)
Theorem handle_web_payment_outcome req app :
  logged_in app = true ->
  (forall items,
     json_body req = Some (PyDict items) ->
     exists reply,
       fst (process_payment_logic (dict_of_items items) (outside app)) = Ok reply /\
       handle_web_payment req app
         = (Respond (Json (JsonReply reply) 200),
            with_outside app (snd (process_payment_logic (dict_of_items items) (outside app))))) /\
  ((forall items, json_body req <> Some (PyDict items)) ->
   exists e,
     handle_web_payment req app
       = (Respond (Json (JsonReply internal_server_error) 500),
          logging_web_error e app)).
Proof.
  intros Hl. unfold handle_web_payment. rewrite Hl. cbn [negb]. split.
  - intros items ->.
    destruct (process_payment_logic_returns (dict_of_items items) (outside app))
      as [reply Hrun].
    exists reply. rewrite Hrun. split; reflexivity.
  - intros Hno. destruct (json_body req) as [[]|]; try (eexists; reflexivity).
    exfalso. now apply (Hno items).
Qed.

Lemma handle_web_payment_outcome_witness :
  exists e,
    handle_web_payment (post_json (PyList [])) (session_login (visitor (world true None)))
    = (Respond (Json (JsonReply internal_server_error) 500),
       logging_web_error e (session_login (visitor (world true None)))).
Proof.
  apply (handle_web_payment_outcome (post_json (PyList []))
           (session_login (visitor (world true None))));
    [reflexivity|discriminate].
Defined.

(** X15.  The payment endpoint never lets an exception through: on
    every request it answers JSON with status 200, 401 or 500; the
    session is never touched, and with 401 or 500 the world of the
    pipeline is as before. *)
Theorem handle_web_payment_answers req app :
  exists body code,
    fst (handle_web_payment req app) = Respond (Json body code) /\
    (code = 200 \/ code = 401 \/ code = 500) /\
    session (snd (handle_web_payment req app)) = session app /\
    (code <> 200 -> outside (snd (handle_web_payment req app)) = outside app).
Proof.
  unfold handle_web_payment.
  destruct (logged_in app); cbn [negb].
  - destruct (json_body req) as [[]|];
      try (do 2 eexists; split; [reflexivity|]; split; [tauto|]; split; reflexivity).
    destruct (process_payment_logic_returns (dict_of_items items) (outside app))
      as [reply Hrun].
    rewrite Hrun. exists (JsonReply reply), 200.
    split; [reflexivity|]. split; [tauto|]. split; [reflexivity|]. congruence.
  - do 2 eexists. split; [reflexivity|]. split; [tauto|]. split; reflexivity.
Qed.

(** X16.  [login_page] logs a client in exactly on a POST with the user
    name "admin" and the password "password": only then it redirects to
    /card, and 'logged_in' is in the session afterwards exactly when it
    was there before or the login was good; the world of the pipeline is
    never touched. *)
Theorem login_page_logs_in req app :
  (fst (login_page req app) = Respond (Redirect "/card")
   <-> good_login (LoginPage, req)) /\
  (logged_in (snd (login_page req app)) = true
   <-> logged_in app = true \/ good_login (LoginPage, req)) /\
  outside (snd (login_page req app)) = outside app.
Proof.
  unfold good_login, login_page. cbn [fst snd].
  destruct (String.eqb (method req) "POST") eqn:Hm;
    [apply String.eqb_eq in Hm|apply String.eqb_neq in Hm].
  - destruct (form req !! "username") as [u|] eqn:Hu.
    + destruct (String.eqb u "admin") eqn:Hua;
        [apply String.eqb_eq in Hua; subst u|apply String.eqb_neq in Hua].
      * destruct (form req !! "password") as [pw|] eqn:Hp.
        -- destruct (String.eqb pw "password") eqn:Hpp;
             [apply String.eqb_eq in Hpp; subst pw|apply String.eqb_neq in Hpp];
             cbn [fst snd]; rewrite ?logged_in_flash, ?logged_in_session_login;
             intuition (discriminate || congruence).
        -- cbn [fst snd]. intuition (discriminate || congruence).
      * cbn [fst snd]. rewrite ?logged_in_flash. intuition (discriminate || congruence).
    + cbn [fst snd]. intuition (discriminate || congruence).
  - cbn [fst snd]. intuition (discriminate || congruence).
Qed.

(** X17.  [login_page] lets a KeyError of the form through in two cases
    only: a POST without "username", and a POST with the user name
    "admin" and without "password" (the password is not looked up behind
    another user name); nothing has changed then. *)
Theorem login_page_aborts req app e :
  fst (login_page req app) = Abort e <->
  method req = "POST" /\
  (form req !! "username" = None /\ e = BadRequestKeyError "username" \/
   form req !! "username" = Some "admin" /\ form req !! "password" = None /\
     e = BadRequestKeyError "password").
Proof.
  unfold login_page.
  destruct (String.eqb (method req) "POST") eqn:Hm;
    [apply String.eqb_eq in Hm|apply String.eqb_neq in Hm].
  - destruct (form req !! "username") as [u|] eqn:Hu.
    + destruct (String.eqb u "admin") eqn:Hua;
        [apply String.eqb_eq in Hua; subst u|apply String.eqb_neq in Hua].
      * destruct (form req !! "password") as [pw|] eqn:Hp.
        -- destruct (String.eqb pw "password"); cbn [fst];
             intuition (discriminate || congruence).
        -- cbn [fst]. intuition (discriminate || congruence).
      * cbn [fst]. intuition (discriminate || congruence).
    + cbn [fst]. intuition (discriminate || congruence).
  - cbn [fst]. intuition (discriminate || congruence).
Qed.

Lemma login_page_aborts_witness :
  fst (login_page {| method := "POST"; form := <["username" := "admin"]> ∅;
                     json_body := None |}
                  (visitor (world true None)))
  = Abort (BadRequestKeyError "password").
Proof.
  apply (proj2 (login_page_aborts _ (visitor (world true None)) _)).
  split; [reflexivity|]. right. repeat split.
Defined.

(** One call of a view function for a client that is not logged in and
    does not log in. *)
Lemma call_view_keeps_out route req app :
  logged_in app = false ->
  ~ good_login (route, req) ->
  logged_in (snd (call_view route req app)) = false /\
  outside (snd (call_view route req app)) = outside app /\
  web_log (snd (call_view route req app)) = web_log app.
Proof.
  intros Hl Hbad.
  destruct (protected route) eqn:Hp.
  - destruct (call_view_refuses route req app Hp Hl) as (_ & H2 & _ & H4 & H5).
    now repeat split.
  - destruct route; try discriminate Hp; cbn [call_view];
      try (unfold index; rewrite Hl; now repeat split);
      try (now repeat split).
    destruct (login_page_logs_in req app) as (_ & Hin & Ho).
    split; [|split; [exact Ho|]].
    + destruct (logged_in (snd (login_page req app))); [|reflexivity].
      destruct (proj1 Hin eq_refl) as [E|E]; [congruence|contradiction].
    + unfold login_page.
      destruct (String.eqb (method req) "POST"); [|reflexivity].
      destruct (form req !! "username") as [u|]; [|reflexivity].
      destruct (String.eqb u "admin"); [|reflexivity].
      destruct (form req !! "password") as [pw|]; [|reflexivity].
      destruct (String.eqb pw "password"); reflexivity.
Qed.

(** One request of such a client. *)
Lemma view_keeps_out route req app :
  logged_in app = false ->
  ~ good_login (route, req) ->
  logged_in (snd (view route req app)) = false /\
  outside (snd (view route req app)) = outside app /\
  web_log (snd (view route req app)) = web_log app.
Proof.
  intros Hl Hbad. unfold view.
  destruct (accepts route (method req)).
  - cbn [snd]. now apply call_view_keeps_out.
  - destruct (String.eqb (method req) "OPTIONS"); now repeat split.
Qed.

(** One request that leaves the client logged in. *)
Lemma view_logged_in route req app :
  logged_in (snd (view route req app)) = true ->
  (logged_in app = true /\ ~ logs_out (route, req)) \/ good_login (route, req).
Proof.
  unfold view, logs_out. cbn [fst snd].
  destruct (accepts route (method req)) eqn:Hacc.
  - cbn [snd]. intros Hafter.
    destruct (logged_in app) eqn:Hl.
    + left. split; [reflexivity|]. intros [-> _]. discriminate Hafter.
    + right.
      destruct (protected route) eqn:Hp.
      * destruct (call_view_refuses route req app Hp Hl) as (_ & H2 & _). congruence.
      * destruct route; try discriminate Hp; cbn [call_view] in Hafter;
          try (unfold index in Hafter; rewrite Hl in Hafter);
          try (cbn in Hafter; congruence).
        -- destruct (login_page_logs_in req app) as (_ & Hin & _).
           apply Hin in Hafter as [H|H]; [congruence|exact H].
        -- unfold logout in Hafter. cbn [snd] in Hafter.
           rewrite logged_in_flash in Hafter. discriminate Hafter.
  - intros Hafter. left. split.
    + destruct (String.eqb (method req) "OPTIONS"); exact Hafter.
    + intros [-> H]. congruence.
Qed.

Lemma serve_cons step requests app :
  serve (step :: requests) app = serve requests (snd (view (fst step) (snd step) app)).
Proof. reflexivity. Qed.

(** X18.  Nobody is logged in without a good login: when a client that
    starts without 'logged_in' has it after a sequence of requests, the
    sequence holds a POST to /login with "admin" and "password", and no
    request behind it reaches the logout view (a request to /logout with
    a method the rule does not have is answered 405 and logs nobody
    out). *)
Theorem logged_in_after_good_login_only requests app :
  logged_in app = false ->
  logged_in (serve requests app) = true ->
  exists earlier step later,
    requests = earlier ++ step :: later /\
    good_login step /\
    Forall (fun s => ~ logs_out s) later.
Proof.
  assert (G : forall reqs a,
            logged_in (serve reqs a) = true ->
            (logged_in a = true /\ Forall (fun s => ~ logs_out s) reqs) \/
            exists earlier step later,
              reqs = earlier ++ step :: later /\ good_login step /\
              Forall (fun s => ~ logs_out s) later).
  { induction reqs as [|[route req] rest IH]; intros a Hend.
    - left. split; [exact Hend|constructor].
    - rewrite serve_cons in Hend. cbn [fst snd] in Hend.
      destruct (IH _ Hend) as [[Hmid Hrest]|(earlier & step & later & -> & Hgood & Hlater)].
      + destruct (view_logged_in route req a Hmid) as [[Ha Hroute]|Hgood].
        * left. split; [exact Ha|]. constructor; [exact Hroute|exact Hrest].
        * right. exists [], (route, req), rest. repeat split; try apply Hgood. exact Hrest.
      + right. exists ((route, req) :: earlier), step, later. repeat split; try apply Hgood.
        exact Hlater. }
  intros Hstart Hend. destruct (G requests app Hend) as [[H _]|H]; [congruence|exact H].
Qed.

Lemma logged_in_after_good_login_only_witness :
  exists earlier step later,
    [(CardPage, get_request); (LoginPage, post_login "admin" "password");
     (Logout, post_request); (Index, get_request)]
    = earlier ++ step :: later /\
    good_login step /\
    Forall (fun s => ~ logs_out s) later.
Proof.
  apply (logged_in_after_good_login_only
           [(CardPage, get_request); (LoginPage, post_login "admin" "password");
            (Logout, post_request); (Index, get_request)]
           (visitor (world true None))); reflexivity.
Defined.

(** X19.  A client that is not logged in cannot reach the pipeline:
    after any sequence of requests without a good login it is still not
    logged in, and the world of the pipeline (ledger, random state,
    entropy, clock, log) and the endpoint's log are untouched. *)
Theorem no_payment_without_login requests app :
  logged_in app = false ->
  Forall (fun step => ~ good_login step) requests ->
  logged_in (serve requests app) = false /\
  outside (serve requests app) = outside app /\
  web_log (serve requests app) = web_log app.
Proof.
  intros Hl Hall. revert app Hl.
  induction Hall as [|[route req] rest Hbad Hrest IH]; intros app Hl.
  - now repeat split.
  - rewrite serve_cons. cbn [fst snd].
    destruct (view_keeps_out route req app Hl Hbad) as (Hl' & Ho & Hw).
    destruct (IH _ Hl') as (H1 & H2 & H3).
    split; [exact H1|]. split; congruence.
Qed.

Lemma no_payment_without_login_witness :
  outside (serve [(LoginPage, post_login "admin" "letmein");
                  (ProcessTransaction, post_json (PyDict [("amount", PyInt 5)]))]
                 (visitor (world true (Some open_ledger))))
  = world true (Some open_ledger).
Proof.
  apply (no_payment_without_login
           [(LoginPage, post_login "admin" "letmein");
            (ProcessTransaction, post_json (PyDict [("amount", PyInt 5)]))]
           (visitor (world true (Some open_ledger)))).
  - reflexivity.
  - repeat constructor; intros (_ & _ & _ & H); discriminate H.
Defined.

(** X20.  The logout view ends the session: whatever the session held,
    after it has run and after any further requests without a good login
    every protected route turns the client away (the view function
    refuses for a method of the rule, Flask answers for another method);
    the logout view does not touch the world of the pipeline. *)
Theorem logout_ends_session app requests route req :
  Forall (fun step => ~ good_login step) requests ->
  protected route = true ->
  fst (view route req (serve requests (snd (logout app)))) = turned_away route req /\
  outside (snd (logout app)) = outside app.
Proof.
  intros Hall Hp.
  assert (Hout : logged_in (snd (logout app)) = false).
  { unfold logout. cbn [snd]. now rewrite logged_in_flash. }
  destruct (no_payment_without_login requests _ Hout Hall) as (Hl & _ & _).
  split; [|reflexivity].
  now apply protected_routes_need_login.
Qed.

Lemma logout_ends_session_witness :
  fst (view CardPage get_request
         (serve [(Index, get_request)]
                (snd (logout (session_login (visitor (world true None)))))))
  = Called (Respond (Redirect "/login")).
Proof.
  apply (logout_ends_session (session_login (visitor (world true None)))
           [(Index, get_request)] CardPage get_request).
  - repeat constructor. intros (H & _). discriminate H.
  - reflexivity.
Defined.

End WebMore.
